(** * auto.py: the vehicle catalogue built from a tab-separated dataset

    A shallow embedding of [auto.py] (typed characteristics, the
    characteristic factory, the row-to-model builder and the dataset
    reader) together with the properties of the catalogue it builds.

    Conventions of the embedding.
    - A Python [str] is a Rocq [string], one [ascii] per code point; the
      embedding therefore covers the code points below 256.
    - A Python [dict] with [str] keys is an insertion-ordered association
      list with pairwise distinct keys ([dict V]): iteration order is
      insertion order and updating a present key keeps its position.
    - Raw values are [str]: every cell that [csv.reader] delivers is one.
    - [Manufacturer] objects are mutable and shared (the registry and every
      [Model] refer to them), so they live in a heap addressed by
      allocation index; a [Model] stores the address of its manufacturer.
    - Exceptions are values of [exn]; a computation is a function from the
      world to an outcome and the world it leaves behind, so that what was
      mutated before a [raise] stays mutated. *)

From Stdlib Require Import Ascii String.
From stdpp Require Import base tactics option list.

Local Open Scope string_scope.
Local Open Scope list_scope.

(** ** Python strings *)

Module PyStr.

(** [str.isspace] on one code point below 256: TAB, LF, VT, FF, CR,
    FS, GS, RS, US, SPACE, NEL and NBSP. *)
Definition isspace (c : ascii) : bool :=
  let n := nat_of_ascii c in
  (Nat.leb 9 n && Nat.leb n 13) || (Nat.leb 28 n && Nat.leb n 32)
  || Nat.eqb n 133 || Nat.eqb n 160.

(** The scan of [str.split()] (no separator): [word] is the token being
    read, [s] what is left of the input.  Runs of whitespace separate
    tokens, and leading and trailing whitespace yields no token. *)
Fixpoint split_from (word s : string) : list string :=
  match s with
  | EmptyString =>
      match word with EmptyString => [] | _ => [word] end
  | String c rest =>
      if isspace c then
        match word with
        | EmptyString => split_from EmptyString rest
        | _ => word :: split_from EmptyString rest
        end
      else split_from (word ++ String c EmptyString) rest
  end.

(** [s.split()] *)
Definition split (s : string) : list string := split_from EmptyString s.

(** [sep.join(parts)] *)
Fixpoint join (sep : string) (parts : list string) : string :=
  match parts with
  | [] => EmptyString
  | [p] => p
  | p :: rest => p ++ sep ++ join sep rest
  end.

(** Every code point of [s] is whitespace (true of the empty string). *)
Fixpoint all_space (s : string) : bool :=
  match s with
  | EmptyString => true
  | String c rest => isspace c && all_space rest
  end.

(** No code point of [s] is whitespace. *)
Fixpoint no_space (s : string) : bool :=
  match s with
  | EmptyString => true
  | String c rest => negb (isspace c) && no_space rest
  end.

End PyStr.

(** ** Python dictionaries keyed by [str] *)

Section PyDict.
Context {V : Type}.

Definition dict : Type := list (string * V).

(** [d.get(k)]: the value stored under [k], if any. *)
Fixpoint dict_get (k : string) (d : dict) : option V :=
  match d with
  | [] => None
  | (k', v) :: d' => if String.eqb k' k then Some v else dict_get k d'
  end.

(** [k in d] *)
Definition dict_mem (k : string) (d : dict) : bool :=
  match dict_get k d with Some _ => true | None => false end.

(** [d.update({k: v})]: replaces the value of a present key where it
    stands, appends a missing key at the end. *)
Fixpoint dict_update (k : string) (v : V) (d : dict) : dict :=
  match d with
  | [] => [(k, v)]
  | (k', v') :: d' =>
      if String.eqb k' k then (k', v) :: d'
      else (k', v') :: dict_update k v d'
  end.

(** [list(d.keys())] *)
Definition dict_keys (d : dict) : list string := map fst d.
End PyDict.

Arguments dict V : clear implicits.

(** ** Exceptions and outcomes *)

Inductive exn : Type :=
| KeyError (key : string)   (* a failed mapping lookup [d[key]] *)
| IndexError                (* a failed sequence lookup [l[i]] *)
| TypeError                 (* a call with the wrong arguments *)
| OSError.                  (* [open] could not open the file *)

Inductive outcome (A : Type) : Type :=
| Return (a : A)
| Raise (e : exn).

Arguments Return {A} a.
Arguments Raise {A} e.

(** [d[k]] *)
Definition getitem {V} (k : string) (d : dict V) : outcome V :=
  match dict_get k d with
  | Some v => Return v
  | None => Raise (KeyError k)
  end.

(** [l[i]] for a list and a non-negative index *)
Definition list_getitem {A} (l : list A) (i : nat) : outcome A :=
  match l !! i with
  | Some x => Return x
  | None => Raise IndexError
  end.

(** ** Units of measure and characteristics *)

Module UnitOfMeasures.
Definition MPG : string := "mpg".
Definition CC : string := "cc".
Definition HP : string := "hp".
Definition KG : string := "kg".
Definition SECONDS : string := "secs".
End UnitOfMeasures.

(** The concrete classes, the values of [CHARACTERISTICS_DICT]. *)
Inductive characteristic_class : Type :=
| MilesPerGallon | NumberOfCylinders | Displacement | HorsePower
| Weight | Acceleration | Year.

(** The class each concrete class derives from; it decides which
    [get_meaningful_value] an instance runs. *)
Inductive base_class : Type :=
| SimpleModelCharacteristic
| ComplexModelCharacteristic.

Definition base_of (c : characteristic_class) : base_class :=
  match c with
  | MilesPerGallon => ComplexModelCharacteristic
  | NumberOfCylinders => SimpleModelCharacteristic
  | Displacement => ComplexModelCharacteristic
  | HorsePower => ComplexModelCharacteristic
  | Weight => ComplexModelCharacteristic
  | Acceleration => ComplexModelCharacteristic
  | Year => SimpleModelCharacteristic
  end.

(** An instance: its class and the two attributes that
    [ModelCharacteristic.__init__] sets; [None] is Python's [None]. *)
Record ModelCharacteristic : Type := {
  class_of : characteristic_class;
  get_value : string;
  get_unit_of_measure : option string
}.

(** [ModelCharacteristic.__init__(self, value, unit_of_measure)] *)
Definition ModelCharacteristic_init
    (c : characteristic_class) (value : string) (unit_of_measure : option string)
    : ModelCharacteristic :=
  {| class_of := c; get_value := value; get_unit_of_measure := unit_of_measure |}.

(** [SimpleModelCharacteristic.__init__(self, value)] *)
Definition SimpleModelCharacteristic_init
    (c : characteristic_class) (value : string) : ModelCharacteristic :=
  ModelCharacteristic_init c value None.

(** [ComplexModelCharacteristic.__init__(self, value, unit_of_measure)] *)
Definition ComplexModelCharacteristic_init
    (c : characteristic_class) (value : string) (unit_of_measure : string)
    : ModelCharacteristic :=
  ModelCharacteristic_init c value (Some unit_of_measure).

(** [cls(value)]: the [__init__] of each concrete class. *)
Definition construct (c : characteristic_class) (value : string) : ModelCharacteristic :=
  match c with
  | MilesPerGallon => ComplexModelCharacteristic_init c value UnitOfMeasures.MPG
  | NumberOfCylinders => SimpleModelCharacteristic_init c value
  | Displacement => ComplexModelCharacteristic_init c value UnitOfMeasures.CC
  | HorsePower => ComplexModelCharacteristic_init c value UnitOfMeasures.HP
  | Weight => ComplexModelCharacteristic_init c value UnitOfMeasures.KG
  | Acceleration => ComplexModelCharacteristic_init c value UnitOfMeasures.SECONDS
  | Year => SimpleModelCharacteristic_init c value
  end.

(** The call [characteristic( *args )]: every concrete [__init__] takes
    exactly one argument besides [self]. *)
Definition instantiate (c : characteristic_class) (args : list string)
    : outcome ModelCharacteristic :=
  match args with
  | [value] => Return (construct c value)
  | _ => Raise TypeError
  end.

(** How an f-string renders the unit attribute. *)
Definition format_unit (u : option string) : string :=
  match u with
  | Some s => s
  | None => "None"
  end.

(** [get_meaningful_value], dispatched on the class of the instance. *)
Definition get_meaningful_value (x : ModelCharacteristic) : string :=
  match base_of (class_of x) with
  | SimpleModelCharacteristic => get_value x
  | ComplexModelCharacteristic =>
      get_value x ++ " " ++ format_unit (get_unit_of_measure x)
  end.

Module ModelCharacteristicBuilder.

Definition CHARACTERISTICS_DICT : dict characteristic_class :=
  [ ("mpg", MilesPerGallon);
    ("cylinders", NumberOfCylinders);
    ("displacement", Displacement);
    ("horsepower", HorsePower);
    ("weight", Weight);
    ("acceleration", Acceleration);
    ("year", Year) ].

(** The truth value of a class object in [if characteristic:]. *)
Definition truthy (c : characteristic_class) : bool := true.

(** [ModelCharacteristicBuilder.build(characteristic_name, *args)];
    the result [None] is Python's [None]. *)
Definition build (characteristic_name : string) (args : list string)
    : outcome (option ModelCharacteristic) :=
  match getitem characteristic_name CHARACTERISTICS_DICT with
  | Raise e => Raise e
  | Return characteristic =>
      if truthy characteristic then
        match instantiate characteristic args with
        | Return x => Return (Some x)
        | Raise e => Raise e
        end
      else Return None
  end.

End ModelCharacteristicBuilder.

(** ** Models, manufacturers and the world *)

(** The address of a [Manufacturer] object: its allocation index. *)
Abbreviation loc := nat (only parsing).

Record Model : Type := {
  get_manufacturer : loc;
  get_model_name : string;
  get_characteristics : list (option ModelCharacteristic)
}.

Record Manufacturer : Type := {
  get_brand : string;
  get_all_models : list Model
}.

(** [Manufacturer.__init__(self, brand)] *)
Definition Manufacturer_init (brand : string) : Manufacturer :=
  {| get_brand := brand; get_all_models := [] |}.

(** [Manufacturer.add_model(self, model)], as the new state of [self]. *)
Definition add_model (model : Model) (self : Manufacturer) : Manufacturer :=
  {| get_brand := get_brand self;
     get_all_models := get_all_models self ++ [model] |}.

(** The world a computation runs in.
    - [csv_files path] is the list of records that
      [csv.reader(open(path), delimiter='\t')] yields, and [None] when
      [open(path)] fails; how the [csv] module cuts a file into records
      is not part of the embedding;
    - [heap] holds the [Manufacturer] objects allocated so far;
    - [registry] is the content of the dictionary that the variable
      [registry] of [DatasetReader.read] and [ModelBuilder.build] refers to;
    - [stdout] is what [print] has written, one entry per call. *)
Record world : Type := {
  csv_files : string -> option (list (list string));
  heap : list Manufacturer;
  registry : dict loc;
  stdout : list string
}.

Definition set_heap (h : list Manufacturer) (w : world) : world :=
  {| csv_files := csv_files w; heap := h;
     registry := registry w; stdout := stdout w |}.

Definition set_registry (r : dict loc) (w : world) : world :=
  {| csv_files := csv_files w; heap := heap w;
     registry := r; stdout := stdout w |}.

Definition set_stdout (o : list string) (w : world) : world :=
  {| csv_files := csv_files w; heap := heap w;
     registry := registry w; stdout := o |}.

(** Computations: state passing with exceptions. *)
Definition M (A : Type) : Type := world -> outcome A * world.

Definition ret {A} (a : A) : M A := fun w => (Return a, w).

Definition raise {A} (e : exn) : M A := fun w => (Raise e, w).

Definition bind {A B} (c : M A) (k : A -> M B) : M B :=
  fun w =>
    match c w with
    | (Return a, w') => k a w'
    | (Raise e, w') => (Raise e, w')
    end.

(** A step that touches no state. *)
Definition lift {A} (o : outcome A) : M A := fun w => (o, w).

Declare Scope py_scope.
Delimit Scope py_scope with py.
Notation "x <- c ;; k" := (bind c (fun x => k))
  (at level 100, c at next level, right associativity) : py_scope.
Notation "c ;;; k" := (bind c (fun _ => k))
  (at level 100, right associativity) : py_scope.
Local Open Scope py_scope.

Definition get_registry : M (dict loc) := fun w => (Return (registry w), w).

(** [registry.update({brand: manufacturer})] *)
Definition registry_update (brand : string) (manufacturer : loc) : M unit :=
  fun w => (Return tt, set_registry (dict_update brand manufacturer (registry w)) w).

(** Allocation of a new [Manufacturer] object. *)
Definition new_Manufacturer (brand : string) : M loc :=
  fun w => (Return (length (heap w)), set_heap (heap w ++ [Manufacturer_init brand]) w).

(** [manufacturer.add_model(model)] on the object at address [manufacturer]. *)
Definition call_add_model (manufacturer : loc) (model : Model) : M unit :=
  fun w => (Return tt, set_heap (alter (add_model model) manufacturer (heap w)) w).

(** [print(item)] *)
Definition print (item : string) : M unit :=
  fun w => (Return tt, set_stdout (stdout w ++ [item]) w).

Module ModelBuilder.

(** The loop [for key, value in kwargs.items()] of [build];
    [characteristics] is the list built so far. *)
Fixpoint build_characteristics
    (items : list (string * string))
    (characteristics : list (option ModelCharacteristic))
    : outcome (list (option ModelCharacteristic)) :=
  match items with
  | [] => Return characteristics
  | (key, value) :: rest =>
      if negb (String.eqb key "name") then
        match ModelCharacteristicBuilder.build key [value] with
        | Return characteristic =>
            build_characteristics rest (characteristics ++ [characteristic])
        | Raise e => Raise e
        end
      else build_characteristics rest characteristics
  end.

(** [ModelBuilder.build(registry, **kwargs)]: the dictionary [registry]
    is the one of the world, and the value returned is that dictionary. *)
Definition build (kwargs : dict string) : M (dict loc) :=
  name <- lift (getitem "name" kwargs) ;;
  let name_parts := PyStr.split name in
  brand <- lift (list_getitem name_parts 0) ;;
  let model_name := PyStr.join " " (drop 1 name_parts) in
  registry0 <- get_registry ;;
  manufacturer <-
    (if dict_mem brand registry0 then lift (getitem brand registry0)
     else (manufacturer <- new_Manufacturer brand ;;
           registry_update brand manufacturer ;;;
           ret manufacturer)) ;;
  characteristics <- lift (build_characteristics kwargs []) ;;
  let model :=
    {| get_manufacturer := manufacturer;
       get_model_name := model_name;
       get_characteristics := characteristics |} in
  call_add_model manufacturer model ;;;
  get_registry.

End ModelBuilder.

Module DatasetReader.

(** The call [ModelBuilder.build(registry, **representation)]: a key
    [registry] among the keyword arguments collides with the positional
    parameter of that name. *)
Definition call_build (representation : dict string) : M (dict loc) :=
  if dict_mem "registry" representation then raise TypeError
  else ModelBuilder.build representation.

(** The loop [for item in row] of [read]. *)
Fixpoint represent (header : list string) (row : list string)
    (item_count : nat) (representation : dict string) : M (dict string) :=
  match row with
  | [] => ret representation
  | item :: rest =>
      print item ;;;
      key <- lift (list_getitem header item_count) ;;
      represent header rest (S item_count) (dict_update key item representation)
  end.

(** The [else] branch of the loop over the records: what [read] does
    with one data record [row]. *)
Definition process_record (header row : list string) : M (dict loc) :=
  representation <- represent header row 0 [] ;;
  call_build representation.

(** The loop [for row in csv_reader] of [read]. *)
Fixpoint read_rows (rows : list (list string))
    (line_count : nat) (header : list string) : M unit :=
  match rows with
  | [] => ret tt
  | row :: rest =>
      if Nat.eqb line_count 0 then
        read_rows rest (S line_count) row
      else
        process_record header row ;;;
        read_rows rest (S line_count) header
  end.

(** [open(data_path)] followed by [csv.reader(csv_file, delimiter='\t')] *)
Definition open_csv (data_path : string) : M (list (list string)) :=
  fun w =>
    match csv_files w data_path with
    | Some rows => (Return rows, w)
    | None => (Raise OSError, w)
    end.

(** [DatasetReader.read(data_path)]; [registry = dict()] makes the
    registry of the world a new, empty dictionary. *)
Definition read (data_path : string) : M (dict loc) :=
  (fun w => (Return tt, set_registry [] w)) ;;;
  rows <- open_csv data_path ;;
  read_rows rows 0 [] ;;;
  get_registry.

End DatasetReader.

(** ** Vocabulary of the specification *)

(** The recognized attribute columns of the source format. *)
Definition recognized_columns : list string :=
  ["mpg"; "cylinders"; "displacement"; "horsepower"; "weight";
   "acceleration"; "year"].

Definition recognized_column (k : string) : bool :=
  existsb (String.eqb k) recognized_columns.

(** What a consumer can observe of an attribute value: its kind, raw
    value, unit and rendering. *)
Definition attribute_view (x : ModelCharacteristic)
    : characteristic_class * string * option string * string :=
  (class_of x, get_value x, get_unit_of_measure x, get_meaningful_value x).

(** The rendering of the attribute value the factory returns for
    [column] and the raw value [v], if it returns one. *)
Definition rendering (column v : string) : option string :=
  match ModelCharacteristicBuilder.build column [v] with
  | Return (Some x) => Some (get_meaningful_value x)
  | _ => None
  end.

(** The unit of the attribute value the factory returns. *)
Definition unit_of (column v : string) : option (option string) :=
  match ModelCharacteristicBuilder.build column [v] with
  | Return (Some x) => Some (get_unit_of_measure x)
  | _ => None
  end.

(** The fields of a row other than its name field, in iteration order. *)
Definition non_name_fields (kwargs : dict string) : list (string * string) :=
  List.filter (fun kv => negb (String.eqb (fst kv) "name")) kwargs.

(** A valid row: it has a name field with at least one token, and every
    other field is a recognized column. *)
Definition recognized_fields (kwargs : dict string) : bool :=
  forallb (fun kv => recognized_column (fst kv)) (non_name_fields kwargs).

Definition valid_row (kwargs : dict string) : bool :=
  match dict_get "name" kwargs with
  | Some name => negb (PyStr.all_space name) && recognized_fields kwargs
  | None => false
  end.

(** A world in which nothing was allocated, registered or printed. *)
Definition initial_world (files : string -> option (list (list string))) : world :=
  {| csv_files := files; heap := []; registry := []; stdout := [] |}.

(** The brand of a row: the first token of its name field. *)
Definition brand_of (kwargs : dict string) : option string :=
  match dict_get "name" kwargs with
  | Some name => head (PyStr.split name)
  | None => None
  end.

Definition has_brand (b : string) (kwargs : dict string) : bool :=
  match brand_of kwargs with
  | Some b' => String.eqb b' b
  | None => false
  end.

(** Every entry of the registry refers to an allocated [Manufacturer]
    whose brand is the key of the entry. *)
Definition registry_ok (w : world) : Prop :=
  forall b l, dict_get b (registry w) = Some l ->
    exists m, heap w !! l = Some m /\ get_brand m = b.

(** The models of the manufacturer registered under brand [b]. *)
Definition models_of (b : string) (w : world) : list Model :=
  match dict_get b (registry w) with
  | Some l =>
      match heap w !! l with
      | Some m => get_all_models m
      | None => []
      end
  | None => []
  end.

(** The brands of the [Manufacturer] objects allocated between the
    worlds [w] and [w'], in allocation order. *)
Definition created_brands (w w' : world) : list string :=
  drop (length (heap w)) (map get_brand (heap w')).

Definition count_brand (b : string) (brands : list string) : nat :=
  length (List.filter (String.eqb b) brands).

(** [ModelBuilder.build] on each row of a sequence, in order. *)
Fixpoint build_all (rows : list (dict string)) : M unit :=
  match rows with
  | [] => ret tt
  | kwargs :: rest => ModelBuilder.build kwargs ;;; build_all rest
  end.

(** The [Model] that [ModelBuilder.build] makes of a row for the
    manufacturer at address [l]. *)
Definition model_of_row (l : loc) (kwargs : dict string) : Model :=
  {| get_manufacturer := l;
     get_model_name :=
       match dict_get "name" kwargs with
       | Some name => PyStr.join " " (drop 1 (PyStr.split name))
       | None => EmptyString
       end;
     get_characteristics :=
       match ModelBuilder.build_characteristics kwargs [] with
       | Return characteristics => characteristics
       | Raise _ => []
       end |}.

(** The get-or-create step of [ModelBuilder.build] for [brand]: the
    address it resolves to and the world it leaves. *)
Definition resolve (brand : string) (w : world) : loc * world :=
  match dict_get brand (registry w) with
  | Some l => (l, w)
  | None =>
      (length (heap w),
       set_registry (dict_update brand (length (heap w)) (registry w))
         (set_heap (heap w ++ [Manufacturer_init brand]) w))
  end.

(** [attached w kwargs brand l w']: between [w] and [w'] the row
    [kwargs] of brand [brand] was attached to the manufacturer at [l]:
    the registry still holds what it held and now holds [brand] at [l],
    at most the manufacturer of [brand] was allocated, and one model,
    the one of the row, was appended to the models of [brand] only. *)
Definition attached (w : world) (kwargs : dict string) (brand : string)
    (l : loc) (w' : world) : Prop :=
  registry_ok w'
  /\ dict_get brand (registry w') = Some l
  /\ (forall b l0, dict_get b (registry w) = Some l0 ->
        dict_get b (registry w') = Some l0)
  /\ (forall b, b <> brand -> dict_get b (registry w') = dict_get b (registry w))
  /\ map get_brand (heap w')
     = map get_brand (heap w)
       ++ (if dict_mem brand (registry w) then [] else [brand])
  /\ (forall b, models_of b w'
        = models_of b w
          ++ (if String.eqb brand b then [model_of_row l kwargs] else []))
  /\ stdout w' = stdout w.

(** ** The name/value set of a record *)

(** The name/value set of a data record as the specification words it:
    the header names paired with the cells of the record, position by
    position. *)
Definition name_value_set (header row : list string) : dict string :=
  fold_left (fun d kv => dict_update (fst kv) (snd kv) d) (zip header row) [].

(** ** The loops of the reader in closed form

    The three definitions below are read off the source, not off the
    specification: they say in one step what the loops of
    [DatasetReader.read] do, are proved equal to those loops, and serve
    the proofs only. *)

(** The loop over the cells of a record: it prints the cells it pairs,
    and a record longer than the header fails at the first cell without
    a column. *)
Definition pair_cells (header row : list string) : M (dict string) :=
  fun w =>
    if Nat.leb (length row) (length header) then
      (Return (name_value_set header row), set_stdout (stdout w ++ row) w)
    else
      (Raise IndexError,
       set_stdout (stdout w ++ take (S (length header)) row) w).

(** The loop over the data records. *)
Fixpoint ingest (header : list string) (data : list (list string)) : M unit :=
  match data with
  | [] => ret tt
  | row :: rest =>
      (representation <- pair_cells header row ;;
       DatasetReader.call_build representation) ;;;
      ingest header rest
  end.

(** [DatasetReader.read] once the source is open. *)
Definition read_closed (records : list (list string)) : M (dict loc) :=
  (fun w => (Return tt, set_registry [] w)) ;;;
  match records with
  | [] => ret tt
  | header :: data => ingest header data
  end ;;;
  get_registry.

(** ** The parser as the specification words it

    The definitions below follow the specification, not the source;
    they are what [DatasetReader.read] is compared with.  The builder
    they fold is [ModelBuilder.build] itself, and they know nothing of
    what the reader prints or of how it calls the builder. *)

(** Every data record has at most as many cells as the header has
    names. *)
Definition data_fit (records : list (list string)) : bool :=
  match records with
  | [] => true
  | header :: data =>
      forallb (fun row => Nat.leb (length row) (length header)) data
  end.

(** The parser: the first record is the header; from an empty registry
    the row-to-model builder is folded over the name/value sets of the
    other records, in order; the registry so populated is returned. *)
Definition spec_parse (records : list (list string)) : M (dict loc) :=
  fun w =>
    match records with
    | [] => (Return [], set_registry [] w)
    | header :: data =>
        match build_all (map (name_value_set header) data) (set_registry [] w) with
        | (Return _, w') => (Return (registry w'), w')
        | (Raise e, w') => (Raise e, w')
        end
    end.

(** The tokens of a display name joined by single spaces: the first
    token, then for each further token one space and the token. *)
Definition single_spaced (tokens : list string) : string :=
  match tokens with
  | [] => EmptyString
  | token :: others =>
      fold_left (fun s t => (s ++ " " ++ t)%string) others token
  end.

(** ** What a consumer observes of a registry *)

(** A model as a consumer sees it: its display name and, per attribute
    value, the kind, the raw value, the unit and the rendering. *)
Definition model_view (m : Model)
    : string * list (option (characteristic_class * string * option string * string)) :=
  (get_model_name m, map (option_map attribute_view) (get_characteristics m)).

(** The registry [r] read through the heap [h]: per brand, in the order
    of the registry, the brand of the manufacturer and its models. *)
Definition catalogue (r : dict loc) (h : list Manufacturer) :=
  map (fun kl =>
         (fst kl,
          option_map (fun mf => (get_brand mf, map model_view (get_all_models mf)))
            (h !! snd kl)))
      r.

(** The result of a run of the parser as its caller sees it: the
    catalogue returned, or the exception raised. *)
Definition result_view (res : outcome (dict loc) * world) :=
  match fst res with
  | Return r => inl (catalogue r (heap (snd res)))
  | Raise e => inr e
  end.

(** ** Two runs at different addresses

    A run that starts with [n] objects already allocated builds the heap
    and the registry of a run that starts with none, with every address
    moved up by [n]. *)

Definition shift_model (n : nat) (m : Model) : Model :=
  {| get_manufacturer := n + get_manufacturer m;
     get_model_name := get_model_name m;
     get_characteristics := get_characteristics m |}.

Definition shift_manufacturer (n : nat) (mf : Manufacturer) : Manufacturer :=
  {| get_brand := get_brand mf;
     get_all_models := map (shift_model n) (get_all_models mf) |}.

Definition shift_registry (n : nat) (r : dict loc) : dict loc :=
  map (fun kl => (fst kl, n + snd kl)) r.

Definition relocated (n : nat) (w0 w : world) : Prop :=
  exists older,
    length older = n
    /\ heap w = older ++ map (shift_manufacturer n) (heap w0)
    /\ registry w = shift_registry n (registry w0).

(** Two results agree: both return, values related by [R] and worlds
    relocated, or both raise the same exception. *)
Definition agree {A : Type} (n : nat) (R : A -> A -> Prop)
    (res0 res : outcome A * world) : Prop :=
  match res0, res with
  | (Return a0, w0), (Return a, w) => R a0 a /\ relocated n w0 w
  | (Raise e0, _), (Raise e, _) => e0 = e
  | _, _ => False
  end.

(** ** Sample data *)

(** The scenario of the specification: one Toyota and two Fords. *)
Definition sample_records : list (list string) :=
  [ ["name"; "mpg"; "cylinders"; "year"];
    ["Toyota Corolla"; "32"; "4"; "1985"];
    ["Ford Focus"; "30"; "4"; "1999"];
    ["Ford Fiesta"; "35"; "4"; "1990"] ].

Definition sample_files (data_path : string) : option (list (list string)) :=
  if String.eqb data_path "Auto.tsv" then Some sample_records else None.

Definition corolla : dict string :=
  [("name", "Toyota Corolla"); ("mpg", "32"); ("cylinders", "4"); ("year", "1985")].

Definition focus : dict string :=
  [("name", "Ford Focus"); ("mpg", "30"); ("cylinders", "4"); ("year", "1999")].

Definition fiesta : dict string :=
  [("name", "Ford Fiesta"); ("mpg", "35"); ("cylinders", "4"); ("year", "1990")].

(** A row whose name has four tokens and uneven whitespace. *)
Definition corolla_gt : dict string :=
  [("name", "Toyota  Corolla   GT Sport "); ("mpg", "32"); ("cylinders", "4");
   ("year", "1985")].

(** A world in which an earlier run left a manufacturer, a registry
    entry and some output behind. *)
Definition used_world : world :=
  {| csv_files := sample_files;
     heap := [Manufacturer_init "Saab"];
     registry := [("Saab", 0)];
     stdout := ["Saab 900"] |}.

(** A dataset with a column the factory does not know. *)
Definition origin_files (data_path : string) : option (list (list string)) :=
  Some [ ["name"; "origin"]; ["Ford Focus"; "1"]; ["Toyota Corolla"; "3"] ].

(** A dataset whose only data record is shorter than its header, and one
    whose only data record is longer. *)
Definition short_files (data_path : string) : option (list (list string)) :=
  Some [ ["name"; "mpg"; "year"]; ["Ford Focus"; "30"] ].

Definition long_files (data_path : string) : option (list (list string)) :=
  Some [ ["name"; "mpg"]; ["Ford Focus"; "30"; "1999"] ].

(** ** The presentation layer: [webapp.py] *)

Module webapp.

Section routes.

(** [render_template] is Flask's: what it makes of a template and of
    the manufacturer handed to it, and whether it raises, is not known
    here.  It may read the world (the template follows the reference to
    the manufacturer). *)
Context {response : Type}.
Variable render_template : string -> option loc -> M response.

(** The route [manufacturer].  [registry] is the module variable
    ([None] until the dataset is read), [brand] is
    [request.args.get("brand")] ([None] when the query has no such
    parameter).  [brand in registry] raises [TypeError] on [None] as
    registry and is false for [None] as brand. *)
Definition manufacturer (registry : option (dict loc)) (brand : option string)
    : M response :=
  match registry with
  | None => raise TypeError
  | Some registry =>
      manufacturer <-
        match brand with
        | None => ret None
        | Some brand =>
            if dict_mem brand registry then
              (found <- lift (getitem brand registry) ;; ret (Some found))
            else ret None
        end ;;
      render_template "brand.html" manufacturer
  end.

End routes.

End webapp.

(** ** Further vocabulary *)



(** A data record that fits the header and pairs into a valid row. *)
Definition record_ok (header row : list string) : bool :=
  Nat.leb (length row) (length header)
  && valid_row (name_value_set header row).

(** The number of models held by the manufacturers of a heap. *)
Definition total_models (h : list Manufacturer) : nat :=
  fold_right (fun mf n => length (get_all_models mf) + n) 0 h.

(** Every model refers back to the manufacturer that holds it. *)
Definition backrefs_ok (w : world) : Prop :=
  forall l mf model,
    heap w !! l = Some mf -> In model (get_all_models mf) ->
    get_manufacturer model = l.

(** [w'] keeps what [w] had: the files and the output, every registry
    entry, and every manufacturer with its brand and its models, to
    which models may have been appended. *)
Definition keeps (w w' : world) : Prop :=
  csv_files w' = csv_files w
  /\ stdout w' = stdout w
  /\ (forall b l, dict_get b (registry w) = Some l ->
        dict_get b (registry w') = Some l)
  /\ (forall l mf, heap w !! l = Some mf ->
        exists mf' more,
          heap w' !! l = Some mf'
          /\ get_brand mf' = get_brand mf
          /\ get_all_models mf' = get_all_models mf ++ more).

(** The brands of a list in the order of their first appearance,
    leaving out those already [seen]. *)
Fixpoint first_appearances (seen brands : list string) : list string :=
  match brands with
  | [] => []
  | b :: rest =>
      if existsb (String.eqb b) seen then first_appearances seen rest
      else b :: first_appearances (seen ++ [b]) rest
  end.

(** The brands of the rows that have one, in order. *)
Definition brands_of (rows : list (dict string)) : list string :=
  omap brand_of rows.

(** ** More sample data *)

Definition sample_header : list string := ["name"; "mpg"; "cylinders"; "year"].

Definition sample_data : list (list string) :=
  [ ["Toyota Corolla"; "32"; "4"; "1985"];
    ["Ford Focus"; "30"; "4"; "1999"];
    ["Ford Fiesta"; "35"; "4"; "1990"] ].

(** The registry that reading the sample in [used_world] returns. *)
Definition sample_registry : dict loc := [("Toyota", 1); ("Ford", 2)].

(** The world that reading the sample in [used_world] leaves. *)
Definition sample_world : world :=
  Eval vm_compute in snd (DatasetReader.read "Auto.tsv" used_world).

(** A template engine that answers with the template and the
    manufacturer it was given. *)
Definition echo_template (template : string) (manufacturer : option loc)
    : M (string * option loc) :=
  ret (template, manufacturer).

(** A dataset with a column called [registry]. *)
Definition registry_files (data_path : string) : option (list (list string)) :=
  Some [ ["name"; "registry"]; ["Ford Focus"; "7"] ].

(** A dataset with a header line and nothing else. *)
Definition header_only_files (data_path : string) : option (list (list string)) :=
  Some [ ["name"; "mpg"] ].

(** * Properties *)

(** ** The characteristic factory *)

Lemma CHARACTERISTICS_DICT_keys :
  dict_keys ModelCharacteristicBuilder.CHARACTERISTICS_DICT = recognized_columns.
Proof. reflexivity. Qed.

Lemma dict_get_recognized (V : Type) (k : string) (d : dict V) :
  dict_mem k d = existsb (String.eqb k) (dict_keys d).
Proof.
  unfold dict_mem. induction d as [|[k' v] d IH]; simpl; [done|].
  rewrite (String.eqb_sym k k').
  destruct (String.eqb k' k); simpl; [done|]. exact IH.
Qed.

Lemma recognized_column_lookup (k : string) :
  recognized_column k = dict_mem k ModelCharacteristicBuilder.CHARACTERISTICS_DICT.
Proof.
  unfold recognized_column. rewrite dict_get_recognized.
  by rewrite CHARACTERISTICS_DICT_keys.
Qed.

Lemma recognized_column_In (k : string) :
  recognized_column k = true <-> In k recognized_columns.
Proof.
  unfold recognized_column. rewrite existsb_exists. split.
  - intros (x & Hin & Heq). apply String.eqb_eq in Heq. by subst.
  - intros Hin. exists k. split; [done|]. apply String.eqb_refl.
Qed.

Lemma factory_build_recognized (k v : string) :
  recognized_column k = true ->
  exists c, dict_get k ModelCharacteristicBuilder.CHARACTERISTICS_DICT = Some c
    /\ ModelCharacteristicBuilder.build k [v] = Return (Some (construct c v)).
Proof.
  rewrite recognized_column_lookup. unfold dict_mem.
  unfold ModelCharacteristicBuilder.build, getitem.
  destruct (dict_get k _) as [c|]; [|done].
  intros _. exists c. done.
Qed.

Lemma factory_build_unrecognized (k : string) (args : list string) :
  recognized_column k = false ->
  ModelCharacteristicBuilder.build k args = Raise (KeyError k).
Proof.
  rewrite recognized_column_lookup. unfold dict_mem.
  unfold ModelCharacteristicBuilder.build, getitem.
  by destruct (dict_get k _).
Qed.

(** C3: for each of the seven recognized columns and every raw value
    [v], the factory returns an attribute value; its rendering is [v],
    a space and the unit for mpg (mpg), displacement (cc), horsepower
    (hp), weight (kg) and acceleration (secs), and [v] alone for
    cylinders and year, which carry no unit. *)
Theorem factory_rendering (v : string) :
  (rendering "mpg" v = Some (v ++ " mpg")%string
   /\ unit_of "mpg" v = Some (Some "mpg"))
  /\ (rendering "displacement" v = Some (v ++ " cc")%string
      /\ unit_of "displacement" v = Some (Some "cc"))
  /\ (rendering "horsepower" v = Some (v ++ " hp")%string
      /\ unit_of "horsepower" v = Some (Some "hp"))
  /\ (rendering "weight" v = Some (v ++ " kg")%string
      /\ unit_of "weight" v = Some (Some "kg"))
  /\ (rendering "acceleration" v = Some (v ++ " secs")%string
      /\ unit_of "acceleration" v = Some (Some "secs"))
  /\ (rendering "cylinders" v = Some v /\ unit_of "cylinders" v = Some None)
  /\ (rendering "year" v = Some v /\ unit_of "year" v = Some None).
Proof. repeat split; reflexivity. Qed.

Lemma factory_returns_some (k : string) (args : list string)
    (c : option ModelCharacteristic) :
  ModelCharacteristicBuilder.build k args = Return c -> exists x, c = Some x.
Proof.
  unfold ModelCharacteristicBuilder.build.
  destruct (getitem k _) as [cls|]; [|done].
  unfold ModelCharacteristicBuilder.truthy.
  destruct (instantiate cls args) as [x|]; [|done].
  intros [= <-]. by exists x.
Qed.

(** C4: [ModelCharacteristicBuilder.build] called with a name and one
    value raises exactly when the name is not one of the seven
    recognized columns, and what it raises then is the [KeyError] of the
    failed lookup; for a recognized name it returns a constructed
    attribute value; and whatever the arguments it never returns
    [None], so the [else] branch of [if characteristic:] is never
    taken. *)
Theorem factory_fails_iff_unrecognized (characteristic_name value : string) :
  ((exists e, ModelCharacteristicBuilder.build characteristic_name [value] = Raise e)
     <-> ~ In characteristic_name recognized_columns)
  /\ (~ In characteristic_name recognized_columns ->
        ModelCharacteristicBuilder.build characteristic_name [value]
        = Raise (KeyError characteristic_name))
  /\ (In characteristic_name recognized_columns ->
        exists x, ModelCharacteristicBuilder.build characteristic_name [value]
                  = Return (Some x))
  /\ (forall args, ModelCharacteristicBuilder.build characteristic_name args
                   <> Return None).
Proof.
  assert (forall args, ModelCharacteristicBuilder.build characteristic_name args
                       <> Return None) as Hnone.
  { intros args Hb. by destruct (factory_returns_some _ _ _ Hb). }
  destruct (recognized_column characteristic_name) eqn:Hrec.
  - destruct (factory_build_recognized _ value Hrec) as (c & _ & Hb).
    apply recognized_column_In in Hrec. rewrite Hb.
    repeat split; try done.
    + by intros [e He].
    + by eexists.
  - pose proof (factory_build_unrecognized _ [value] Hrec) as Hb.
    assert (~ In characteristic_name recognized_columns) as Hnot.
    { intros Hin. apply recognized_column_In in Hin. congruence. }
    rewrite Hb. repeat split; try done.
    by eexists.
Qed.

(** ** Strings *)

Lemma split_from_nil (word s : string) :
  PyStr.split_from word s = [] <-> word = EmptyString /\ PyStr.all_space s = true.
Proof.
  revert word. induction s as [|c s IH]; intros word; simpl.
  - destruct word; split; try done. by intros [? _].
  - destruct (PyStr.isspace c); simpl.
    + destruct word.
      * rewrite IH. tauto.
      * split; [done|]. by intros [? _].
    + rewrite IH. split; [|by intros [_ ?]].
      intros [Hw _]. by destruct word.
Qed.

Lemma split_nil (s : string) :
  PyStr.split s = [] <-> PyStr.all_space s = true.
Proof. unfold PyStr.split. rewrite split_from_nil. tauto. Qed.

Lemma split_cons (s : string) :
  PyStr.all_space s = false ->
  exists brand rest, PyStr.split s = brand :: rest.
Proof.
  intros Hs. destruct (PyStr.split s) as [|brand rest] eqn:Hsplit.
  - apply split_nil in Hsplit. congruence.
  - by exists brand, rest.
Qed.

Lemma append_empty_r (s : string) : (s ++ EmptyString)%string = s.
Proof. induction s as [|c s IH]; simpl; [done|]. by rewrite IH. Qed.

Lemma append_assoc (s1 s2 s3 : string) :
  ((s1 ++ s2) ++ s3)%string = (s1 ++ (s2 ++ s3))%string.
Proof. induction s1 as [|c s1 IH]; simpl; [done|]. by rewrite IH. Qed.

(** A run of whitespace before the first token yields nothing. *)
Lemma split_from_leading_space (pre s : string) :
  PyStr.all_space pre = true ->
  PyStr.split_from EmptyString (pre ++ s) = PyStr.split_from EmptyString s.
Proof.
  induction pre as [|c pre IH]; simpl; [done|].
  intros [Hc Hpre]%andb_prop. rewrite Hc. by apply IH.
Qed.

(** The code points of a token extend the word being read. *)
Lemma split_from_token (token word s : string) :
  PyStr.no_space token = true ->
  PyStr.split_from word (token ++ s) = PyStr.split_from (word ++ token) s.
Proof.
  revert word. induction token as [|c token IH]; intros word; simpl.
  - by rewrite append_empty_r.
  - intros [Hc Htoken]%andb_prop. apply negb_true_iff in Hc.
    rewrite Hc, IH by done. by rewrite append_assoc.
Qed.

(** A run of whitespace at the end closes the word being read. *)
Lemma split_from_trailing_space (word post : string) :
  word <> EmptyString -> PyStr.all_space post = true ->
  PyStr.split_from word post = [word].
Proof.
  intros Hword. destruct post as [|c post]; simpl.
  - by destruct word.
  - intros [Hc Hpost]%andb_prop. rewrite Hc.
    assert (PyStr.split_from EmptyString post = []) as ->.
    { by apply split_from_nil. }
    by destruct word.
Qed.

(** A name made of one token, possibly surrounded by whitespace, splits
    into that token alone. *)
Lemma split_single_token (pre token post : string) :
  PyStr.all_space pre = true -> PyStr.no_space token = true ->
  token <> EmptyString -> PyStr.all_space post = true ->
  PyStr.split (pre ++ token ++ post) = [token].
Proof.
  intros Hpre Htoken Hne Hpost. unfold PyStr.split.
  rewrite split_from_leading_space, split_from_token by done.
  by apply split_from_trailing_space.
Qed.

(** The first token of a name is cut at the first run of whitespace that
    follows it; the tokens after it are those of the remainder. *)
Lemma split_first_token (pre brand sep remainder : string) :
  PyStr.all_space pre = true -> PyStr.no_space brand = true ->
  brand <> EmptyString -> PyStr.all_space sep = true -> sep <> EmptyString ->
  PyStr.split (pre ++ brand ++ sep ++ remainder)
  = brand :: PyStr.split remainder.
Proof.
  intros Hpre Hbrand Hne Hsep Hsep_ne. unfold PyStr.split.
  rewrite split_from_leading_space, split_from_token by done.
  destruct sep as [|c sep]; [done|]. simpl in *.
  apply andb_prop in Hsep as [Hc Hsep]. rewrite Hc.
  rewrite split_from_leading_space by done.
  by destruct brand.
Qed.

(** No token is empty. *)
Lemma split_from_nonempty (word s : string) :
  Forall (fun token => token <> EmptyString) (PyStr.split_from word s).
Proof.
  revert word. induction s as [|c s IH]; intros word; simpl.
  - destruct word; by repeat constructor.
  - destruct (PyStr.isspace c); [|apply IH].
    destruct word; [apply IH|]. constructor; [done|apply IH].
Qed.

Lemma no_space_app (s1 s2 : string) :
  PyStr.no_space (s1 ++ s2) = PyStr.no_space s1 && PyStr.no_space s2.
Proof.
  induction s1 as [|c s1 IH]; simpl; [done|].
  by rewrite IH, andb_assoc.
Qed.

(** No token holds whitespace. *)
Lemma split_from_no_space (word s : string) :
  PyStr.no_space word = true ->
  Forall (fun token => PyStr.no_space token = true) (PyStr.split_from word s).
Proof.
  revert word. induction s as [|c s IH]; intros word Hword; simpl.
  - destruct word; by repeat constructor.
  - destruct (PyStr.isspace c) eqn:Hc.
    + destruct word; [by apply IH|]. constructor; [done|by apply IH].
    + apply IH. rewrite no_space_app, Hword. simpl. by rewrite Hc.
Qed.

Lemma split_tokens (s : string) :
  Forall (fun token => token <> EmptyString /\ PyStr.no_space token = true)
    (PyStr.split s).
Proof.
  apply Forall_and. split.
  - apply split_from_nonempty.
  - by apply split_from_no_space.
Qed.

(** ** Dictionaries *)

Section dict_facts.
Context {V : Type}.
Implicit Types (d : dict V) (k : string) (v : V).

Lemma dict_get_update_eq k v d : dict_get k (dict_update k v d) = Some v.
Proof.
  induction d as [|[k' v'] d IH]; simpl.
  - by rewrite String.eqb_refl.
  - destruct (String.eqb k' k) eqn:E; simpl; rewrite E; [done|exact IH].
Qed.

Lemma dict_get_update_ne k k' v d :
  k <> k' -> dict_get k' (dict_update k v d) = dict_get k' d.
Proof.
  intros Hne. induction d as [|[k0 v0] d IH]; simpl.
  - apply String.eqb_neq in Hne. by rewrite Hne.
  - destruct (String.eqb k0 k) eqn:E; simpl.
    + apply String.eqb_eq in E. subst k0.
      apply String.eqb_neq in Hne. by rewrite Hne.
    + by rewrite IH.
Qed.

Lemma dict_mem_true k d : dict_mem k d = true <-> exists v, dict_get k d = Some v.
Proof.
  unfold dict_mem. destruct (dict_get k d); split; try done.
  - by eexists.
  - by intros [? ?].
Qed.

Lemma dict_mem_false k d : dict_mem k d = false <-> dict_get k d = None.
Proof. unfold dict_mem. by destruct (dict_get k d). Qed.
End dict_facts.

(** ** The row-to-model builder *)

Lemma build_characteristics_app items acc :
  ModelBuilder.build_characteristics items acc
  = match ModelBuilder.build_characteristics items [] with
    | Return cs => Return (acc ++ cs)
    | Raise e => Raise e
    end.
Proof.
  revert acc. induction items as [|[key value] items IH]; intros acc; simpl.
  - by rewrite app_nil_r.
  - destruct (negb (String.eqb key "name")); [|apply IH].
    destruct (ModelCharacteristicBuilder.build key [value]) as [c|e]; [|done].
    rewrite (IH (acc ++ [c])), (IH [c]).
    destruct (ModelBuilder.build_characteristics items []); [|done].
    by rewrite <- app_assoc.
Qed.

(** On recognized columns the loop returns one attribute value per field
    other than the name, in iteration order: the one the factory returns
    for that field. *)
Lemma build_characteristics_valid (items : dict string) :
  recognized_fields items = true ->
  exists cs,
    ModelBuilder.build_characteristics items [] = Return cs
    /\ Forall2 (fun kv c => ModelCharacteristicBuilder.build (fst kv) [snd kv] = Return c)
         (non_name_fields items) cs.
Proof.
  unfold recognized_fields.
  induction items as [|[key value] items IH]; simpl.
  - intros _. exists []. split; [done|constructor].
  - destruct (negb (String.eqb key "name")); simpl; [|exact IH].
    intros [Hkey Hrest]%andb_prop.
    destruct (IH Hrest) as (cs & Hcs & Hall).
    destruct (factory_build_recognized key value Hkey) as (c & _ & Hc).
    rewrite Hc, build_characteristics_app, Hcs.
    exists (Some (construct c value) :: cs). split; [done|].
    by constructor.
Qed.

(** The first field the factory rejects stops the loop. *)
Lemma build_characteristics_invalid (items : dict string) :
  recognized_fields items = false ->
  exists key, ModelBuilder.build_characteristics items [] = Raise (KeyError key)
    /\ recognized_column key = false /\ In key (dict_keys (non_name_fields items)).
Proof.
  unfold recognized_fields.
  induction items as [|[key value] items IH]; simpl; [done|].
  destruct (negb (String.eqb key "name")); simpl; [|exact IH].
  destruct (recognized_column key) eqn:Hkey; simpl.
  - intros Hrest. destruct (IH Hrest) as (k & Hk & Hnot & Hin).
    destruct (factory_build_recognized key value Hkey) as (c & _ & Hc).
    rewrite Hc, build_characteristics_app, Hk. exists k. auto.
  - intros _. exists key.
    rewrite (factory_build_unrecognized key [value] Hkey). auto.
Qed.

(** [ModelBuilder.build], case by case: what it returns or raises and
    the world it leaves. *)
Lemma build_run (kwargs : dict string) (w : world) :
  ModelBuilder.build kwargs w =
  match dict_get "name" kwargs with
  | None => (Raise (KeyError "name"), w)
  | Some name =>
      match PyStr.split name with
      | [] => (Raise IndexError, w)
      | brand :: _ =>
          let '(l, w1) := resolve brand w in
          match ModelBuilder.build_characteristics kwargs [] with
          | Raise e => (Raise e, w1)
          | Return _ =>
              (Return (registry w1),
               set_heap (alter (add_model (model_of_row l kwargs)) l (heap w1)) w1)
          end
      end
  end.
Proof.
  unfold ModelBuilder.build, bind, lift, getitem, model_of_row.
  destruct (dict_get "name" kwargs) as [name|]; [|done].
  unfold list_getitem. destruct (PyStr.split name) as [|brand rest]; [done|].
  simpl. unfold resolve, dict_mem.
  destruct (dict_get brand (registry w)) as [l|] eqn:Hreg; simpl.
  - by destruct (ModelBuilder.build_characteristics kwargs []).
  - by destruct (ModelBuilder.build_characteristics kwargs []).
Qed.

Ltac world_simpl :=
  cbn [set_heap set_registry set_stdout heap registry stdout csv_files] in *.

Lemma valid_row_inv (kwargs : dict string) :
  valid_row kwargs = true ->
  exists name brand rest cs,
    dict_get "name" kwargs = Some name
    /\ PyStr.split name = brand :: rest
    /\ brand_of kwargs = Some brand
    /\ ModelBuilder.build_characteristics kwargs [] = Return cs
    /\ Forall2 (fun kv c => ModelCharacteristicBuilder.build (fst kv) [snd kv] = Return c)
         (non_name_fields kwargs) cs.
Proof.
  unfold valid_row, brand_of.
  destruct (dict_get "name" kwargs) as [name|]; [|done].
  intros [Hname Hfields]%andb_prop.
  apply negb_true_iff in Hname.
  destruct (split_cons name Hname) as (brand & rest & Hsplit).
  destruct (build_characteristics_valid kwargs Hfields) as (cs & Hcs & Hall).
  exists name, brand, rest, cs. rewrite Hsplit. done.
Qed.

Lemma map_get_brand_alter (model : Model) (l : loc) (h : list Manufacturer) :
  map get_brand (alter (add_model model) l h) = map get_brand h.
Proof.
  revert l. induction h as [|m h IH]; intros [|l]; simpl; try done.
  f_equal. apply IH.
Qed.

Lemma registry_ok_lt (w : world) (b : string) (l : loc) :
  registry_ok w -> dict_get b (registry w) = Some l -> l < length (heap w).
Proof.
  intros Hok Hb. destruct (Hok b l Hb) as (m & Hm & _).
  by apply lookup_lt_Some in Hm.
Qed.

(** [ModelBuilder.build] on a valid row returns the registry and has
    attached the row to the manufacturer of its brand. *)
Lemma build_valid (w : world) (kwargs : dict string) :
  registry_ok w -> valid_row kwargs = true ->
  exists brand l w',
    brand_of kwargs = Some brand
    /\ ModelBuilder.build kwargs w = (Return (registry w'), w')
    /\ attached w kwargs brand l w'.
Proof.
  intros Hok Hvalid.
  destruct (valid_row_inv kwargs Hvalid)
    as (name & brand & rest & cs & Hname & Hsplit & Hbrand & Hcs & _).
  rewrite build_run, Hname, Hsplit, Hcs. unfold resolve.
  destruct (dict_get brand (registry w)) as [l|] eqn:Hreg.
  - (* the brand is registered: its manufacturer is reused *)
    destruct (Hok brand l Hreg) as (m & Hm & Hmb).
    exists brand, l,
      (set_heap (alter (add_model (model_of_row l kwargs)) l (heap w)) w).
    split; [done|]. split; [reflexivity|].
    unfold attached, registry_ok, models_of, dict_mem; world_simpl. rewrite Hreg.
    repeat split; try done.
    + intros b l0 Hb. destruct (Hok b l0 Hb) as (m0 & Hm0 & Hb0).
      destruct (decide (l = l0)) as [->|Hne].
      * rewrite list_lookup_alter_eq, Hm0. by eexists.
      * rewrite list_lookup_alter_ne by done. by eexists.
    + by rewrite map_get_brand_alter, app_nil_r.
    + intros b. destruct (String.eqb_spec brand b) as [<-|Hne].
      * by rewrite Hreg, list_lookup_alter_eq, Hm.
      * rewrite app_nil_r.
        destruct (dict_get b (registry w)) as [l0|] eqn:Hb; [|done].
        destruct (Hok b l0 Hb) as (m0 & Hm0 & Hb0).
        rewrite list_lookup_alter_ne; [done|].
        intros ->. congruence.
  - (* the brand is new: a manufacturer is allocated and registered *)
    set (l := length (heap w)).
    set (w1 := set_registry (dict_update brand l (registry w))
                 (set_heap (heap w ++ [Manufacturer_init brand]) w)).
    exists brand, l,
      (set_heap (alter (add_model (model_of_row l kwargs)) l (heap w1)) w1).
    split; [done|]. split; [reflexivity|]. subst w1 l.
    unfold attached, registry_ok, models_of, dict_mem; world_simpl. rewrite Hreg.
    rewrite dict_get_update_eq.
    repeat split; try done.
    + intros b l0. destruct (String.eqb_spec brand b) as [<-|Hne].
      * rewrite dict_get_update_eq. intros [= <-].
        rewrite list_lookup_alter_eq, list_lookup_middle by done. by eexists.
      * rewrite dict_get_update_ne by done. intros Hb.
        pose proof (registry_ok_lt w b l0 Hok Hb) as Hlt.
        destruct (Hok b l0 Hb) as (m0 & Hm0 & Hb0).
        rewrite list_lookup_alter_ne by lia.
        rewrite lookup_app_l by done. by eexists.
    + intros b l0 Hb. rewrite dict_get_update_ne; [done|]. congruence.
    + intros b Hne. by rewrite dict_get_update_ne.
    + by rewrite map_get_brand_alter, map_app.
    + intros b. destruct (String.eqb_spec brand b) as [<-|Hne].
      * rewrite dict_get_update_eq, Hreg.
        by rewrite list_lookup_alter_eq, list_lookup_middle.
      * rewrite app_nil_r, dict_get_update_ne by done.
        destruct (dict_get b (registry w)) as [l0|] eqn:Hb; [|done].
        pose proof (registry_ok_lt w b l0 Hok Hb) as Hlt.
        rewrite list_lookup_alter_ne by lia.
        by rewrite lookup_app_l.
Qed.

Lemma has_brand_eqb (b brand : string) (kwargs : dict string) :
  brand_of kwargs = Some brand -> has_brand b kwargs = String.eqb brand b.
Proof. unfold has_brand. by intros ->. Qed.

Lemma count_brand_app (b : string) (l1 l2 : list string) :
  count_brand b (l1 ++ l2) = count_brand b l1 + count_brand b l2.
Proof. unfold count_brand. by rewrite List.filter_app, length_app. Qed.

(** The invariant of a run of [build_all] over valid rows, for all brands
    at once. *)
Lemma build_all_valid (rows : list (dict string)) (w : world) :
  registry_ok w -> forallb valid_row rows = true ->
  exists w' new,
    build_all rows w = (Return tt, w')
    /\ registry_ok w'
    /\ (forall b l0, dict_get b (registry w) = Some l0 ->
          dict_get b (registry w') = Some l0)
    /\ map get_brand (heap w') = map get_brand (heap w) ++ new
    /\ (forall b, count_brand b new
          = if dict_mem b (registry w) then 0
            else match List.filter (has_brand b) rows with [] => 0 | _ => 1 end)
    /\ (forall b l, dict_get b (registry w') = Some l ->
          models_of b w'
          = models_of b w ++ map (model_of_row l) (List.filter (has_brand b) rows))
    /\ (forall b, List.filter (has_brand b) rows <> [] ->
          dict_mem b (registry w') = true).
Proof.
  revert w. induction rows as [|kwargs rows IH]; intros w Hok Hvalid.
  - exists w, []. simpl. repeat split; try done.
    + by rewrite app_nil_r.
    + intros b. by destruct (dict_mem b (registry w)).
    + intros b l _. by rewrite app_nil_r.
  - simpl in Hvalid. apply andb_prop in Hvalid as [Hrow Hrows].
    destruct (build_valid w kwargs Hok Hrow)
      as (brand & l1 & w1 & Hbrand & Hrun & Hok1 & Hl1 & Hmono1 & Hother1
          & Hheap1 & Hmodels1 & _).
    destruct (IH w1 Hok1 Hrows)
      as (w' & new & Hrun' & Hok' & Hmono' & Hheap' & Hcount' & Hmodels' & Hmem').
    exists w', ((if dict_mem brand (registry w) then [] else [brand]) ++ new).
    split. { simpl. unfold bind. by rewrite Hrun. }
    split; [done|].
    split. { intros b l0 Hb. by apply Hmono', Hmono1. }
    split. { by rewrite Hheap', Hheap1, app_assoc. }
    split; [|split].
    + intros b. rewrite count_brand_app, Hcount'. simpl.
      rewrite (has_brand_eqb b brand kwargs Hbrand).
      destruct (String.eqb_spec brand b) as [<-|Hne].
      * assert (dict_mem brand (registry w1) = true) as ->.
        { apply dict_mem_true. by eexists. }
        destruct (dict_mem brand (registry w)); [done|].
        unfold count_brand. simpl. by rewrite String.eqb_refl.
      * assert (dict_mem b (registry w1) = dict_mem b (registry w)) as ->.
        { unfold dict_mem. by rewrite Hother1. }
        assert (count_brand b (if dict_mem brand (registry w) then [] else [brand]) = 0)
          as ->; [|done].
        destruct (dict_mem brand (registry w)); [done|].
        unfold count_brand. simpl.
        destruct (String.eqb_spec b brand); [congruence|done].
    + intros b l Hb. rewrite (Hmodels' b l Hb), Hmodels1. simpl.
      rewrite (has_brand_eqb b brand kwargs Hbrand).
      destruct (String.eqb_spec brand b) as [<-|Hne].
      * apply Hmono' in Hl1. assert (l1 = l) as -> by congruence.
        by rewrite <- app_assoc.
      * by rewrite app_nil_r.
    + intros b. simpl. rewrite (has_brand_eqb b brand kwargs Hbrand).
      destruct (String.eqb_spec brand b) as [<-|Hne].
      * intros _. apply dict_mem_true. exists l1. by apply Hmono'.
      * apply Hmem'.
Qed.

Lemma registry_ok_empty (w : world) : registry w = [] -> registry_ok w.
Proof. intros Hreg b l. by rewrite Hreg. Qed.

(** C1: [ModelBuilder.build] run over a sequence of valid rows, from a
    world whose registry is sound, returns on every row; for every brand
    [b], with [rows_b] the rows whose first name token is [b] (all the
    rows when they share that token): exactly one [Manufacturer] of
    brand [b] is allocated when [b] was missing from the registry and
    [rows_b] is not empty, none otherwise (an entry that exists is
    reused: it keeps its address); and the manufacturer registered under
    [b] then holds, after the models it held before, one model per row
    of [rows_b], in source order. *)
Theorem one_manufacturer_per_brand
    (rows : list (dict string)) (w : world) (b : string) :
  registry_ok w -> forallb valid_row rows = true ->
  let rows_b := List.filter (has_brand b) rows in
  exists w',
    build_all rows w = (Return tt, w')
    /\ count_brand b (created_brands w w')
       = (if dict_mem b (registry w) then 0
          else match rows_b with [] => 0 | _ => 1 end)
    /\ (forall l0, dict_get b (registry w) = Some l0 ->
          dict_get b (registry w') = Some l0)
    /\ (rows_b <> [] ->
        exists l m,
          dict_get b (registry w') = Some l
          /\ heap w' !! l = Some m
          /\ get_brand m = b
          /\ get_all_models m = models_of b w ++ map (model_of_row l) rows_b
          /\ length (get_all_models m) = length (models_of b w) + length rows_b)
    /\ (forallb (has_brand b) rows = true -> rows_b = rows).
Proof.
  intros Hok Hvalid rows_b.
  destruct (build_all_valid rows w Hok Hvalid)
    as (w' & new & Hrun & Hok' & Hmono & Hheap & Hcount & Hmodels & Hmem).
  exists w'. split; [done|]. split; [|split; [|split]].
  - unfold created_brands. rewrite Hheap.
    rewrite <- (length_map get_brand (heap w)), drop_app_length. apply Hcount.
  - apply Hmono.
  - intros Hrows. apply Hmem, dict_mem_true in Hrows as [l Hl].
    destruct (Hok' b l Hl) as (m & Hm & Hb).
    pose proof (Hmodels b l Hl) as Hmodels_b.
    unfold models_of at 1 in Hmodels_b. rewrite Hl, Hm in Hmodels_b.
    exists l, m. repeat split; try done.
    by rewrite Hmodels_b, length_app, length_map.
  - intros Hall. subst rows_b. clear -Hall.
    induction rows as [|r rows IH]; simpl in *; [done|].
    apply andb_prop in Hall as [-> Hrest]. by rewrite IH.
Qed.

(** What [ModelBuilder.build] does with a row whose name has the tokens
    [brand :: rest] and whose other fields are recognized columns. *)
Lemma build_attaches (kwargs : dict string) (w : world)
    (name brand : string) (rest : list string) :
  registry_ok w -> recognized_fields kwargs = true ->
  dict_get "name" kwargs = Some name -> PyStr.split name = brand :: rest ->
  exists w' l m model,
    ModelBuilder.build kwargs w = (Return (registry w'), w')
    /\ dict_get brand (registry w') = Some l
    /\ heap w' !! l = Some m
    /\ get_brand m = brand
    /\ get_all_models m = models_of brand w ++ [model]
    /\ get_manufacturer model = l
    /\ get_model_name model = PyStr.join " " rest
    /\ Forall2 (fun kv c =>
                  exists x, ModelCharacteristicBuilder.build (fst kv) [snd kv]
                            = Return (Some x) /\ c = Some x)
         (non_name_fields kwargs) (get_characteristics model).
Proof.
  intros Hok Hfields Hname Hsplit.
  assert (valid_row kwargs = true) as Hvalid.
  { unfold valid_row. rewrite Hname, Hfields, andb_true_r.
    apply negb_true_iff. destruct (PyStr.all_space name) eqn:Hs; [|done].
    apply split_nil in Hs. congruence. }
  destruct (build_valid w kwargs Hok Hvalid)
    as (brand' & l & w' & Hbrand & Hrun & Hok' & Hl & _ & _ & _ & Hmodels & _).
  assert (brand' = brand) as ->.
  { unfold brand_of in Hbrand. rewrite Hname, Hsplit in Hbrand. by injection Hbrand. }
  destruct (Hok' brand l Hl) as (m & Hm & Hmb).
  specialize (Hmodels brand). rewrite String.eqb_refl in Hmodels.
  unfold models_of at 1 in Hmodels. rewrite Hl, Hm in Hmodels.
  exists w', l, m, (model_of_row l kwargs).
  repeat split; try done.
  - unfold model_of_row; simpl. by rewrite Hname, Hsplit.
  - destruct (valid_row_inv kwargs Hvalid)
      as (? & ? & ? & cs & _ & _ & _ & Hcs & Hall).
    unfold model_of_row; simpl. rewrite Hcs.
    eapply Forall2_impl; [exact Hall|].
    intros [k v] c Hc. simpl in *.
    destruct (factory_returns_some _ _ _ Hc) as [x' ->]. by exists x'.
Qed.

Lemma fold_spaced (others : list string) (s1 s2 : string) :
  fold_left (fun s t => (s ++ " " ++ t)%string) others (s1 ++ s2)%string
  = (s1 ++ fold_left (fun s t => (s ++ " " ++ t)%string) others s2)%string.
Proof.
  revert s2. induction others as [|t others IH]; intros s2; [done|].
  cbn [fold_left]. by rewrite append_assoc, IH.
Qed.

(** [' '.join] puts exactly one space between two tokens and nothing
    before the first or after the last. *)
Lemma join_single_spaced (tokens : list string) :
  PyStr.join " " tokens = single_spaced tokens.
Proof.
  induction tokens as [|t [|t2 others] IH]; [done|done|].
  change (PyStr.join " " (t :: t2 :: others))
    with (t ++ " " ++ PyStr.join " " (t2 :: others))%string.
  rewrite IH. cbn [single_spaced fold_left].
  change (t ++ " " ++ t2)%string with (t ++ (" " ++ t2))%string.
  rewrite <- (append_assoc t " " t2), fold_spaced.
  by rewrite append_assoc.
Qed.

(** Splitting what [' '.join] made of tokens gives the tokens back. *)
Lemma split_join (tokens : list string) :
  Forall (fun token => token <> EmptyString /\ PyStr.no_space token = true) tokens ->
  PyStr.split (PyStr.join " " tokens) = tokens.
Proof.
  induction tokens as [|t [|t2 others] IH]; intros Htokens; [done| |].
  - apply Forall_cons in Htokens as [[Hne Hns] _]. simpl.
    pose proof (split_single_token EmptyString t EmptyString
                  eq_refl Hns Hne eq_refl) as Hsingle.
    cbn [String.append] in Hsingle. by rewrite append_empty_r in Hsingle.
  - apply Forall_cons in Htokens as [[Hne Hns] Hothers].
    change (PyStr.join " " (t :: t2 :: others))
      with (EmptyString ++ t ++ " " ++ PyStr.join " " (t2 :: others))%string.
    rewrite split_first_token by done. by rewrite IH.
Qed.

(** C2: for a valid row, [ModelBuilder.build] returns and appends to the
    manufacturer of the row's brand one model; its display name is
    the tokens of the name field after the first, joined by single
    spaces (the first of them, then one space and the next, and so on;
    splitting it gives those tokens back), and its characteristics are,
    in iteration order of the fields other than the name, the attribute
    value the factory returns for each of them. *)
Theorem build_appends_model (kwargs : dict string) (w : world)
    (name brand : string) (rest : list string) :
  registry_ok w -> valid_row kwargs = true ->
  dict_get "name" kwargs = Some name -> PyStr.split name = brand :: rest ->
  exists w' l m model,
    ModelBuilder.build kwargs w = (Return (registry w'), w')
    /\ dict_get brand (registry w') = Some l
    /\ heap w' !! l = Some m
    /\ get_all_models m = models_of brand w ++ [model]
    /\ get_manufacturer model = l
    /\ get_model_name model = single_spaced rest
    /\ PyStr.split (get_model_name model) = rest
    /\ Forall2 (fun kv c =>
                  exists x, ModelCharacteristicBuilder.build (fst kv) [snd kv]
                            = Return (Some x) /\ c = Some x)
         (non_name_fields kwargs) (get_characteristics model)
    /\ length (get_characteristics model) = length (non_name_fields kwargs).
Proof.
  intros Hok Hvalid Hname Hsplit.
  assert (recognized_fields kwargs = true) as Hfields.
  { unfold valid_row in Hvalid. rewrite Hname in Hvalid.
    by apply andb_prop in Hvalid as [_ ?]. }
  destruct (build_attaches kwargs w name brand rest Hok Hfields Hname Hsplit)
    as (w' & l & m & model & Hrun & Hl & Hm & _ & Hmodels & Hman & Hmn & Hall).
  assert (Forall (fun token => token <> EmptyString /\ PyStr.no_space token = true)
            rest) as Hrest.
  { pose proof (split_tokens name) as Htokens. rewrite Hsplit in Htokens.
    by apply Forall_cons in Htokens as [_ ?]. }
  exists w', l, m, model. repeat split; try done.
  - by rewrite Hmn, join_single_spaced.
  - rewrite Hmn. by apply split_join.
  - symmetry. by eapply Forall2_length.
Qed.

(** C6: a row whose name field is one token, possibly surrounded by
    whitespace, and whose other fields are recognized columns does not
    make [ModelBuilder.build] raise: the manufacturer registered under
    that token (created when it was missing) receives a model whose
    display name is the empty string. *)
Theorem single_token_name_builds (kwargs : dict string) (w : world)
    (pre token post : string) :
  registry_ok w -> recognized_fields kwargs = true ->
  dict_get "name" kwargs = Some (pre ++ token ++ post)%string ->
  PyStr.all_space pre = true -> PyStr.no_space token = true ->
  token <> EmptyString -> PyStr.all_space post = true ->
  exists w' l m model,
    ModelBuilder.build kwargs w = (Return (registry w'), w')
    /\ dict_get token (registry w') = Some l
    /\ heap w' !! l = Some m
    /\ get_brand m = token
    /\ get_all_models m = models_of token w ++ [model]
    /\ get_model_name model = EmptyString.
Proof.
  intros Hok Hfields Hname Hpre Htoken Hne Hpost.
  pose proof (split_single_token pre token post Hpre Htoken Hne Hpost) as Hsplit.
  destruct (build_attaches kwargs w _ token [] Hok Hfields Hname Hsplit)
    as (w' & l & m & model & Hrun & Hl & Hm & Hb & Hmodels & _ & Hmn & _).
  by exists w', l, m, model.
Qed.


(** ** The dataset reader *)

Lemma set_stdout_id (w : world) : set_stdout (stdout w) w = w.
Proof. by destruct w. Qed.

(** The loop over the cells of a record, from any position within the
    header. *)
Lemma represent_run (header row : list string) (i : nat) (d : dict string)
    (w : world) :
  i <= length header ->
  DatasetReader.represent header row i d w =
  if Nat.leb (i + length row) (length header) then
    (Return (fold_left (fun d kv => dict_update (fst kv) (snd kv) d)
               (zip (drop i header) row) d),
     set_stdout (stdout w ++ row) w)
  else
    (Raise IndexError,
     set_stdout (stdout w ++ take (S (length header - i)) row) w).
Proof.
  revert i d w. induction row as [|item row IH]; intros i d w Hi; simpl.
  - rewrite Nat.add_0_r. destruct (Nat.leb_spec i (length header)); [|lia].
    unfold ret. rewrite app_nil_r, set_stdout_id.
    by destruct (drop i header).
  - unfold bind, print, lift, list_getitem; world_simpl.
    destruct (header !! i) as [key|] eqn:Hkey.
    + pose proof (lookup_lt_Some _ _ _ Hkey) as Hlt.
      rewrite IH by lia. world_simpl.
      replace (S i + length row) with (i + S (length row)) by lia.
      rewrite (drop_S _ _ _ Hkey).
      replace (length header - i) with (S (length header - S i)) by lia.
      rewrite <- !app_assoc.
      by destruct (Nat.leb (i + S (length row)) (length header)).
    + apply lookup_ge_None in Hkey.
      destruct (Nat.leb_spec (i + S (length row)) (length header)); [lia|].
      replace (length header - i) with 0 by lia. by rewrite take_0.
Qed.

Lemma represent_pair_cells (header row : list string) (w : world) :
  DatasetReader.represent header row 0 [] w = pair_cells header row w.
Proof.
  rewrite represent_run by lia. unfold pair_cells, name_value_set. simpl.
  by rewrite Nat.sub_0_r.
Qed.

Lemma process_record_pair_cells (header row : list string) (w : world) :
  DatasetReader.process_record header row w
  = (representation <- pair_cells header row ;;
     DatasetReader.call_build representation) w.
Proof.
  unfold DatasetReader.process_record, bind. by rewrite represent_pair_cells.
Qed.

(** Past the header line the loop ingests the records one by one. *)
Lemma read_rows_ingest (data : list (list string)) (n : nat)
    (header : list string) (w : world) :
  DatasetReader.read_rows data (S n) header w = ingest header data w.
Proof.
  revert n w. induction data as [|row data IH]; intros n w; simpl; [done|].
  unfold bind at 1 2. rewrite process_record_pair_cells.
  destruct ((representation <- pair_cells header row ;;
             DatasetReader.call_build representation) w) as [[r|e] w1]; [|done].
  apply IH.
Qed.

(** [read] once the source is open: the loop over the records from an
    empty registry, then the registry. *)
Lemma read_unfold (data_path : string) (w : world) (records : list (list string)) :
  csv_files w data_path = Some records ->
  DatasetReader.read data_path w =
  match DatasetReader.read_rows records 0 [] (set_registry [] w) with
  | (Return _, w') => (Return (registry w'), w')
  | (Raise e, w') => (Raise e, w')
  end.
Proof.
  intros Hopen.
  unfold DatasetReader.read, bind, DatasetReader.open_csv.
  world_simpl. by rewrite Hopen.
Qed.

Lemma read_unavailable (data_path : string) (w : world) :
  csv_files w data_path = None ->
  DatasetReader.read data_path w = (Raise OSError, set_registry [] w).
Proof.
  intros Hopen.
  unfold DatasetReader.read, bind, DatasetReader.open_csv.
  world_simpl. by rewrite Hopen.
Qed.

Lemma read_run (data_path : string) (w : world) (records : list (list string)) :
  csv_files w data_path = Some records ->
  DatasetReader.read data_path w = read_closed records w.
Proof.
  intros Hopen. rewrite (read_unfold _ _ _ Hopen).
  unfold read_closed, bind.
  destruct records as [|header data]; [done|].
  cbn [DatasetReader.read_rows Nat.eqb]. by rewrite read_rows_ingest.
Qed.

(** The loop over the records, past the header line, runs over a
    concatenation one part after the other. *)
Lemma read_rows_app (rows1 rows2 : list (list string)) (n : nat)
    (header : list string) (w : world) :
  DatasetReader.read_rows (rows1 ++ rows2) (S n) header w =
  match DatasetReader.read_rows rows1 (S n) header w with
  | (Return _, w1) => DatasetReader.read_rows rows2 (S n + length rows1) header w1
  | (Raise e, w1) => (Raise e, w1)
  end.
Proof.
  revert n w. induction rows1 as [|row rows1 IH]; intros n w.
  - simpl. by rewrite Nat.add_0_r.
  - cbn [app DatasetReader.read_rows Nat.eqb length]. unfold bind.
    destruct (DatasetReader.process_record header row w) as [[r|e] w1]; [|done].
    rewrite IH. by replace (S n + S (length rows1)) with (S (S n) + length rows1) by lia.
Qed.

(** C8: when the records before a data record are ingested and
    processing that record raises, [DatasetReader.read] raises the same
    exception there and then: it returns no registry, whatever records
    follow, and the world is the one the failing record left. *)
Theorem failure_aborts_ingestion (data_path : string) (w w1 w2 : world)
    (header : list string) (before : list (list string)) (row : list string)
    (after : list (list string)) (e : exn) :
  csv_files w data_path = Some (header :: before ++ row :: after) ->
  DatasetReader.read_rows (header :: before) 0 [] (set_registry [] w)
  = (Return tt, w1) ->
  DatasetReader.process_record header row w1 = (Raise e, w2) ->
  DatasetReader.read data_path w = (Raise e, w2).
Proof.
  intros Hopen Hbefore Hrow. rewrite (read_unfold _ _ _ Hopen).
  cbn [DatasetReader.read_rows Nat.eqb] in *.
  rewrite read_rows_app, Hbefore.
  cbn [DatasetReader.read_rows Nat.eqb Nat.add]. unfold bind. by rewrite Hrow.
Qed.

(** ** Records that do not fit the header *)

Lemma dict_get_In {V : Type} (k : string) (v : V) (d : dict V) :
  dict_get k d = Some v -> In (k, v) d.
Proof.
  induction d as [|[k' v'] d IH]; simpl; [done|].
  destruct (String.eqb_spec k' k) as [->|_].
  - intros [= ->]. by left.
  - intros Hd. right. by apply IH.
Qed.

(** The keyword [registry] is not a field of a valid row. *)
Lemma valid_row_no_registry_key (kwargs : dict string) :
  valid_row kwargs = true -> dict_mem "registry" kwargs = false.
Proof.
  unfold valid_row. destruct (dict_get "name" kwargs); [|done].
  intros [_ Hfields]%andb_prop. apply dict_mem_false.
  destruct (dict_get "registry" kwargs) as [v|] eqn:Hget; [|done].
  apply dict_get_In in Hget.
  unfold recognized_fields in Hfields. rewrite forallb_forall in Hfields.
  specialize (Hfields ("registry", v)).
  unfold non_name_fields in Hfields. rewrite filter_In in Hfields.
  by specialize (Hfields (conj Hget eq_refl)).
Qed.

(** [ModelBuilder.build] returns on valid rows only. *)
Lemma build_returns_valid (kwargs : dict string) (w w' : world) (r : dict loc) :
  ModelBuilder.build kwargs w = (Return r, w') -> valid_row kwargs = true.
Proof.
  rewrite build_run. unfold valid_row.
  destruct (dict_get "name" kwargs) as [name|]; [|done].
  destruct (PyStr.split name) as [|brand rest] eqn:Hsplit; [done|].
  destruct (resolve brand w) as [l w1].
  destruct (recognized_fields kwargs) eqn:Hfields.
  - intros _. rewrite andb_true_r. apply negb_true_iff.
    destruct (PyStr.all_space name) eqn:Hs; [|done].
    apply split_nil in Hs. congruence.
  - destruct (build_characteristics_invalid kwargs Hfields) as (k & -> & _). done.
Qed.

Lemma process_record_registry_ok (header row : list string) (w w' : world)
    (r : dict loc) :
  registry_ok w ->
  DatasetReader.process_record header row w = (Return r, w') -> registry_ok w'.
Proof.
  intros Hok. rewrite process_record_pair_cells. unfold bind, pair_cells.
  destruct (Nat.leb (length row) (length header)); [|done].
  unfold DatasetReader.call_build.
  destruct (dict_mem "registry" _); [done|].
  intros Hrun. pose proof (build_returns_valid _ _ _ _ Hrun) as Hvalid.
  set (w0 := set_stdout (stdout w ++ row) w) in *.
  assert (registry_ok w0) as Hok0 by exact Hok.
  destruct (build_valid w0 _ Hok0 Hvalid) as (? & ? & w'' & _ & Hrun' & Hok' & _).
  rewrite Hrun in Hrun'. by injection Hrun' as _ ->.
Qed.

Lemma read_rows_registry_ok (rows : list (list string)) (n : nat)
    (header : list string) (w w' : world) :
  registry_ok w ->
  DatasetReader.read_rows rows (S n) header w = (Return tt, w') -> registry_ok w'.
Proof.
  revert n w. induction rows as [|row rows IH]; intros n w Hok.
  - simpl. unfold ret. by intros [= <-].
  - cbn [DatasetReader.read_rows Nat.eqb]. unfold bind.
    destruct (DatasetReader.process_record header row w) as [[r|e] w1] eqn:Hrow;
      [|done].
    apply IH. by eapply process_record_registry_ok.
Qed.

(** The names of a name/value set are header names at positions that
    the record has. *)
Lemma fold_update_keys (pairs : list (string * string)) (d : dict string) (k : string) :
  In k (dict_keys (fold_left (fun d kv => dict_update (fst kv) (snd kv) d) pairs d)) ->
  In k (dict_keys d) \/ In k (map fst pairs).
Proof.
  revert d. induction pairs as [|[k' v'] pairs IH]; intros d; simpl; [by left|].
  intros [Hd|Hp]%IH; [|by right; right].
  clear IH. simpl in Hd. induction d as [|[k0 v0] d IHd]; simpl in *.
  - destruct Hd as [->|[]]. right. by left.
  - destruct (String.eqb k0 k'); simpl in Hd.
    + by left.
    + destruct Hd as [->|Hd]; [by left; left|].
      destruct (IHd Hd) as [?|?]; [left; by right|by right].
Qed.

Lemma name_value_set_keys (header row : list string) (k : string) :
  In k (dict_keys (name_value_set header row)) -> In k (take (length row) header).
Proof.
  intros [[]|Hin]%fold_update_keys.
  rewrite <- (zip_with_take_l pair header row) in Hin.
  change (map fst ?l) with (l.*1) in Hin.
  rewrite fst_zip in Hin; [done|].
  rewrite length_take. lia.
Qed.

(** C9 as amended: once the records before it are ingested, a data
    record with more cells than the header makes [DatasetReader.read]
    raise [IndexError] at the first cell without a column; a record with
    no more cells than the header is paired without any error, and only
    with the leading header names its cells reach; when the fields so
    paired form a valid row, [read] processes the record and the model
    it appends carries one attribute value per paired field other than
    the name. *)
Theorem record_length_mismatch (data_path : string) (w w1 : world)
    (header : list string) (before : list (list string)) (row : list string)
    (after : list (list string)) :
  csv_files w data_path = Some (header :: before ++ row :: after) ->
  DatasetReader.read_rows (header :: before) 0 [] (set_registry [] w)
  = (Return tt, w1) ->
  (length header < length row ->
     DatasetReader.read data_path w
     = (Raise IndexError,
        set_stdout (stdout w1 ++ take (S (length header)) row) w1))
  /\ (length row <= length header ->
       DatasetReader.represent header row 0 [] w1
       = (Return (name_value_set header row), set_stdout (stdout w1 ++ row) w1)
       /\ (forall k, In k (dict_keys (name_value_set header row)) ->
                     In k (take (length row) header))
       /\ (valid_row (name_value_set header row) = true ->
           exists w2 brand l m model,
             DatasetReader.process_record header row w1 = (Return (registry w2), w2)
             /\ brand_of (name_value_set header row) = Some brand
             /\ dict_get brand (registry w2) = Some l
             /\ heap w2 !! l = Some m
             /\ get_all_models m = models_of brand w1 ++ [model]
             /\ Forall2 (fun kv c =>
                           exists x, ModelCharacteristicBuilder.build (fst kv) [snd kv]
                                     = Return (Some x) /\ c = Some x)
                  (non_name_fields (name_value_set header row))
                  (get_characteristics model))).
Proof.
  intros Hopen Hbefore. split.
  - intros Hlong. rewrite (read_unfold _ _ _ Hopen).
    cbn [DatasetReader.read_rows Nat.eqb] in *.
    rewrite read_rows_app, Hbefore.
    cbn [DatasetReader.read_rows Nat.eqb Nat.add]. unfold bind at 1.
    rewrite process_record_pair_cells. unfold bind, pair_cells.
    destruct (Nat.leb_spec (length row) (length header)); [lia|done].
  - intros Hfits.
    assert (DatasetReader.represent header row 0 [] w1
            = (Return (name_value_set header row),
               set_stdout (stdout w1 ++ row) w1)) as Hpair.
    { rewrite represent_pair_cells. unfold pair_cells.
      destruct (Nat.leb_spec (length row) (length header)); [done|lia]. }
    split; [done|]. split; [apply name_value_set_keys|].
    intros Hvalid.
    assert (registry_ok w1) as Hok1.
    { cbn [DatasetReader.read_rows Nat.eqb] in Hbefore.
      eapply read_rows_registry_ok; [|exact Hbefore].
      by apply registry_ok_empty. }
    destruct (valid_row_inv _ Hvalid)
      as (name & brand & rest & _ & Hname & Hsplit & Hbrand & _ & _).
    assert (recognized_fields (name_value_set header row) = true) as Hfields.
    { unfold valid_row in Hvalid. rewrite Hname in Hvalid.
      by apply andb_prop in Hvalid as [_ ?]. }
    set (w1' := set_stdout (stdout w1 ++ row) w1) in *.
    assert (registry_ok w1') as Hok1' by exact Hok1.
    destruct (build_attaches _ w1' name brand rest Hok1' Hfields Hname Hsplit)
      as (w2 & l & m & model & Hrun & Hl & Hm & _ & Hmodels & _ & _ & Hall).
    exists w2, brand, l, m, model. repeat split; try done.
    unfold DatasetReader.process_record, bind. rewrite Hpair.
    unfold DatasetReader.call_build.
    by rewrite (valid_row_no_registry_key _ Hvalid).
Qed.

(** C9 as stated fails: a data record with fewer cells than the header
    can fail.  With the header [mpg name] and the one-cell record [18]
    the name column is cut off, and [read] raises [KeyError] for
    [name] instead of processing the record. *)
Lemma short_record_fails :
  length ["18"] < length ["mpg"; "name"]
  /\ fst (DatasetReader.read "Auto.tsv"
            (initial_world (fun _ => Some [["mpg"; "name"]; ["18"]])))
     = Raise (KeyError "name").
Proof. split; [simpl; lia|reflexivity]. Qed.

(** ** Determinism of the parser *)

Lemma dict_get_shift (n : nat) (b : string) (r : dict loc) :
  dict_get b (shift_registry n r) = option_map (Nat.add n) (dict_get b r).
Proof.
  induction r as [|[k l] r IH]; simpl; [done|].
  by destruct (String.eqb k b).
Qed.

Lemma dict_update_shift (n : nat) (b : string) (l : loc) (r : dict loc) :
  dict_update b (n + l) (shift_registry n r) = shift_registry n (dict_update b l r).
Proof.
  induction r as [|[k l0] r IH]; simpl; [done|].
  destruct (String.eqb k b); simpl; [done|]. by rewrite IH.
Qed.

Lemma alter_add_model_shift (n : nat) (model : Model) (l : loc)
    (h : list Manufacturer) :
  alter (add_model (shift_model n model)) l (map (shift_manufacturer n) h)
  = map (shift_manufacturer n) (alter (add_model model) l h).
Proof.
  revert l. induction h as [|mf h IH]; intros [|l]; simpl; try done.
  - f_equal. unfold add_model, shift_manufacturer; simpl. by rewrite map_app.
  - f_equal. apply IH.
Qed.

Lemma catalogue_relocated (n : nat) (w0 w : world) (r0 : dict loc) :
  relocated n w0 w ->
  catalogue (shift_registry n r0) (heap w) = catalogue r0 (heap w0).
Proof.
  intros (older & Hn & Hheap & _). unfold catalogue, shift_registry.
  rewrite map_map. apply map_ext. intros [b l]; simpl. f_equal.
  rewrite Hheap, lookup_app_r by lia.
  replace (n + l - length older) with l by lia.
  change (map ?f ?x) with (f <$> x) at 1. rewrite list_lookup_fmap.
  destruct (heap w0 !! l) as [mf|]; simpl; [|done].
  f_equal. f_equal. rewrite map_map. by apply map_ext.
Qed.

(** [ModelBuilder.build] does the same at both addresses. *)
Lemma build_relocated (n : nat) (w0 w : world) (kwargs : dict string) :
  relocated n w0 w ->
  agree n (fun r0 r => r = shift_registry n r0)
    (ModelBuilder.build kwargs w0) (ModelBuilder.build kwargs w).
Proof.
  intros (older & Hn & Hheap & Hreg). rewrite !build_run.
  destruct (dict_get "name" kwargs) as [name|]; [|done].
  destruct (PyStr.split name) as [|brand rest]; [done|].
  unfold resolve. rewrite Hreg, dict_get_shift.
  destruct (dict_get brand (registry w0)) as [l0|]; simpl.
  - destruct (ModelBuilder.build_characteristics kwargs []); [|done].
    split; [done|]. exists older. world_simpl. split; [done|]. split; [|done].
    rewrite Hheap, <- Hn, alter_app_r.
    change (model_of_row (length older + l0) kwargs)
      with (shift_model (length older) (model_of_row l0 kwargs)).
    by rewrite alter_add_model_shift.
  - destruct (ModelBuilder.build_characteristics kwargs []); [|done].
    world_simpl. rewrite Hheap, length_app, length_map, Hn.
    split; [by rewrite dict_update_shift|].
    exists older. world_simpl. split; [done|].
    split; [|by rewrite dict_update_shift].
    rewrite <- app_assoc.
    change [Manufacturer_init brand]
      with (map (shift_manufacturer n) [Manufacturer_init brand]).
    rewrite <- map_app.
    replace (n + length (heap w0)) with (length older + length (heap w0)) by lia.
    rewrite alter_app_r. subst n.
    change (model_of_row (length older + length (heap w0)) kwargs)
      with (shift_model (length older) (model_of_row (length (heap w0)) kwargs)).
    by rewrite alter_add_model_shift.
Qed.

Lemma process_relocated (n : nat) (w0 w : world) (header row : list string) :
  relocated n w0 w ->
  agree n (fun r0 r => r = shift_registry n r0)
    ((representation <- pair_cells header row ;;
      DatasetReader.call_build representation) w0)
    ((representation <- pair_cells header row ;;
      DatasetReader.call_build representation) w).
Proof.
  intros Hrel. unfold bind, pair_cells.
  destruct (Nat.leb (length row) (length header)); [|done].
  unfold DatasetReader.call_build.
  destruct (dict_mem "registry" (name_value_set header row)); [done|].
  by apply build_relocated.
Qed.

Lemma ingest_relocated (n : nat) (header : list string)
    (data : list (list string)) (w0 w : world) :
  relocated n w0 w ->
  agree n (fun _ _ => True) (ingest header data w0) (ingest header data w).
Proof.
  revert w0 w. induction data as [|row data IH]; intros w0 w Hrel; [done|].
  cbn [ingest]. unfold bind at 1 3.
  pose proof (process_relocated n w0 w header row Hrel) as Hrow.
  destruct ((representation <- pair_cells header row ;;
             DatasetReader.call_build representation) w0) as [[r0|e0] w0'];
    destruct ((representation <- pair_cells header row ;;
               DatasetReader.call_build representation) w) as [[r|e] w'];
    try done.
  destruct Hrow as [_ Hrel']. by apply IH.
Qed.

(** What the parser returns does not depend on what was allocated,
    registered or printed before it ran. *)
Lemma read_closed_view (records : list (list string)) (w : world) :
  result_view (read_closed records w)
  = result_view (read_closed records (initial_world (fun _ => None))).
Proof.
  assert (relocated (length (heap w)) (initial_world (fun _ => None))
            (set_registry [] w)) as Hrel.
  { exists (heap w). by rewrite app_nil_r. }
  unfold read_closed, bind. cbv beta iota.
  change (set_registry [] (initial_world (fun _ => None)))
    with (initial_world (fun _ => None)).
  destruct records as [|header data].
  - done.
  - pose proof (ingest_relocated _ header data _ _ Hrel) as Hrun.
    destruct (ingest header data (initial_world (fun _ => None))) as [[[]|e0] w0'];
      destruct (ingest header data (set_registry [] w)) as [[[]|e] w'];
      try done.
    + destruct Hrun as [_ Hrel']. unfold get_registry, result_view; simpl.
      destruct Hrel' as (older & Hn & Hheap & Hreg). rewrite Hreg.
      f_equal. apply catalogue_relocated. by exists older.
    + unfold result_view; simpl. by rewrite Hrun.
Qed.

(** C7: two runs of [DatasetReader.read] on the same source contents
    give the same result, whatever the worlds they start in (what was
    allocated, registered and printed before): either both raise the
    same exception, or both return registries with the same brands in
    the same order and, per brand, the same models with the same
    display names and the same attribute content (kind, raw value, unit
    and rendering). *)
Theorem read_deterministic (data_path : string) (w1 w2 : world) :
  csv_files w1 data_path = csv_files w2 data_path ->
  result_view (DatasetReader.read data_path w1)
  = result_view (DatasetReader.read data_path w2).
Proof.
  intros Hsame. destruct (csv_files w1 data_path) as [records|] eqn:Hopen.
  - rewrite (read_run _ _ _ Hopen), (read_run data_path w2 records) by done.
    rewrite read_closed_view. symmetry. apply read_closed_view.
  - by rewrite !read_unavailable.
Qed.

(** ** The scenarios of the specification *)

Example scenario_toyota_corolla :
  let res := DatasetReader.read "Auto.tsv"
               (initial_world (fun _ => Some (take 2 sample_records))) in
  fst res = Return [("Toyota", 0)]
  /\ map (fun mf => (get_brand mf, map model_view (get_all_models mf))) (heap (snd res))
     = [("Toyota",
         [("Corolla",
           [Some (MilesPerGallon, "32", Some "mpg", "32 mpg");
            Some (NumberOfCylinders, "4", None, "4");
            Some (Year, "1985", None, "1985")])])].
Proof. split; reflexivity. Qed.

Example scenario_two_fords :
  let res := DatasetReader.read "Auto.tsv" (initial_world sample_files) in
  fst res = Return [("Toyota", 0); ("Ford", 1)]
  /\ map (fun mf => (get_brand mf, map get_model_name (get_all_models mf)))
       (heap (snd res))
     = [("Toyota", ["Corolla"]); ("Ford", ["Focus"; "Fiesta"])].
Proof. split; reflexivity. Qed.

Example scenario_tesla :
  let res := ModelBuilder.build [("name", "Tesla")] (initial_world sample_files) in
  fst res = Return [("Tesla", 0)]
  /\ map (fun mf => (get_brand mf, map get_model_name (get_all_models mf)))
       (heap (snd res))
     = [("Tesla", [EmptyString])].
Proof. split; reflexivity. Qed.

Example split_runs_of_whitespace :
  PyStr.split "  Ford   Focus ST " = ["Ford"; "Focus"; "ST"].
Proof. reflexivity. Qed.

(** ** Instances of the theorems *)

Lemma one_manufacturer_per_brand_witness :
  registry_ok (initial_world sample_files)
  /\ forallb valid_row [focus; corolla; fiesta] = true
  /\ exists w',
       build_all [focus; corolla; fiesta] (initial_world sample_files)
       = (Return tt, w')
       /\ count_brand "Ford" (created_brands (initial_world sample_files) w') = 1
       /\ exists l m,
            dict_get "Ford" (registry w') = Some l
            /\ heap w' !! l = Some m
            /\ get_all_models m = [model_of_row l focus; model_of_row l fiesta].
Proof.
  assert (registry_ok (initial_world sample_files)) as Hok.
  { intros b l H. discriminate H. }
  split; [exact Hok|]. split; [reflexivity|].
  destruct (one_manufacturer_per_brand [focus; corolla; fiesta]
              (initial_world sample_files) "Ford" Hok eq_refl)
    as (w' & Hrun & Hcount & _ & Hmodels & _).
  exists w'. split; [exact Hrun|]. split; [exact Hcount|].
  destruct Hmodels as (l & m & Hl & Hm & _ & Hall & _).
  { discriminate. }
  exists l, m. split; [exact Hl|]. split; [exact Hm|exact Hall].
Defined.

Lemma build_appends_model_witness :
  registry_ok used_world
  /\ valid_row corolla_gt = true
  /\ PyStr.split "Toyota  Corolla   GT Sport " = ["Toyota"; "Corolla"; "GT"; "Sport"]
  /\ exists w' l m model,
       ModelBuilder.build corolla_gt used_world = (Return (registry w'), w')
       /\ dict_get "Toyota" (registry w') = Some l
       /\ heap w' !! l = Some m
       /\ get_all_models m = models_of "Toyota" used_world ++ [model]
       /\ get_manufacturer model = l
       /\ get_model_name model = "Corolla GT Sport"
       /\ PyStr.split (get_model_name model) = ["Corolla"; "GT"; "Sport"]
       /\ Forall2 (fun kv c =>
                     exists x, ModelCharacteristicBuilder.build (fst kv) [snd kv]
                               = Return (Some x) /\ c = Some x)
            (non_name_fields corolla_gt) (get_characteristics model)
       /\ length (get_characteristics model) = length (non_name_fields corolla_gt).
Proof.
  assert (registry_ok used_world) as Hok.
  { intros b l. unfold used_world. cbn [registry heap dict_get].
    destruct (String.eqb_spec "Saab" b) as [<-|_]; [|discriminate].
    intros [= <-]. exists (Manufacturer_init "Saab"). split; reflexivity. }
  split; [exact Hok|]. split; [reflexivity|]. split; [reflexivity|].
  exact (build_appends_model corolla_gt used_world "Toyota  Corolla   GT Sport "
           "Toyota" ["Corolla"; "GT"; "Sport"] Hok eq_refl eq_refl eq_refl).
Defined.

Lemma single_token_name_builds_witness :
  registry_ok (initial_world sample_files)
  /\ exists w' l m model,
       ModelBuilder.build [("name", " Tesla "); ("year", "2012")]
         (initial_world sample_files)
       = (Return (registry w'), w')
       /\ dict_get "Tesla" (registry w') = Some l
       /\ heap w' !! l = Some m
       /\ get_brand m = "Tesla"
       /\ get_all_models m = models_of "Tesla" (initial_world sample_files) ++ [model]
       /\ get_model_name model = EmptyString.
Proof.
  assert (registry_ok (initial_world sample_files)) as Hok.
  { intros b l H. discriminate H. }
  split; [exact Hok|].
  apply (single_token_name_builds [("name", " Tesla "); ("year", "2012")]
           (initial_world sample_files) " " "Tesla" " " Hok);
    first [reflexivity | discriminate].
Defined.


Lemma read_deterministic_witness :
  csv_files (initial_world sample_files) "Auto.tsv" = csv_files used_world "Auto.tsv"
  /\ result_view (DatasetReader.read "Auto.tsv" (initial_world sample_files))
     = result_view (DatasetReader.read "Auto.tsv" used_world).
Proof.
  split; [reflexivity|].
  apply (read_deterministic "Auto.tsv" (initial_world sample_files) used_world).
  reflexivity.
Defined.

Lemma failure_aborts_ingestion_witness :
  DatasetReader.read "Auto.tsv" (initial_world origin_files)
  = (Raise (KeyError "origin"),
     {| csv_files := origin_files;
        heap := [Manufacturer_init "Ford"];
        registry := [("Ford", 0)];
        stdout := ["Ford Focus"; "1"] |}).
Proof.
  apply (failure_aborts_ingestion "Auto.tsv" (initial_world origin_files)
           (initial_world origin_files) _ ["name"; "origin"] []
           ["Ford Focus"; "1"] [["Toyota Corolla"; "3"]]);
    reflexivity.
Defined.

Lemma record_length_mismatch_witness :
  (length ["name"; "mpg"] < length ["Ford Focus"; "30"; "1999"]
   /\ DatasetReader.read "Auto.tsv" (initial_world long_files)
      = (Raise IndexError,
         set_stdout ["Ford Focus"; "30"; "1999"] (initial_world long_files)))
  /\ (length ["Ford Focus"; "30"] <= length ["name"; "mpg"; "year"]
      /\ valid_row (name_value_set ["name"; "mpg"; "year"] ["Ford Focus"; "30"]) = true
      /\ exists w2,
           DatasetReader.process_record ["name"; "mpg"; "year"] ["Ford Focus"; "30"]
             (initial_world short_files)
           = (Return (registry w2), w2)).
Proof.
  split.
  - split; [simpl; lia|].
    destruct (record_length_mismatch "Auto.tsv" (initial_world long_files)
                (initial_world long_files) ["name"; "mpg"] []
                ["Ford Focus"; "30"; "1999"] [] eq_refl eq_refl) as [Hlong _].
    apply Hlong. simpl; lia.
  - split; [simpl; lia|]. split; [reflexivity|].
    destruct (record_length_mismatch "Auto.tsv" (initial_world short_files)
                (initial_world short_files) ["name"; "mpg"; "year"] []
                ["Ford Focus"; "30"] [] eq_refl eq_refl) as [_ Hshort].
    destruct Hshort as (_ & _ & Hvalid); [simpl; lia|].
    destruct (Hvalid eq_refl) as (w2 & brand & l & m & model & Hrun & _).
    exists w2. exact Hrun.
Defined.


(** * Further properties *)

(** ** The factory and the arity of the call *)

(** X1: for a recognized column the factory returns exactly when it is
    given one value, and raises [TypeError] otherwise; for any other
    name it raises the [KeyError] of the lookup whatever the number of
    values, since the lookup comes before the call. *)
Theorem factory_arity (characteristic_name : string) (args : list string) :
  (recognized_column characteristic_name = true ->
     ((exists x, ModelCharacteristicBuilder.build characteristic_name args
                 = Return (Some x)) <-> length args = 1)
     /\ (length args <> 1 ->
           ModelCharacteristicBuilder.build characteristic_name args
           = Raise TypeError))
  /\ (recognized_column characteristic_name = false ->
       ModelCharacteristicBuilder.build characteristic_name args
       = Raise (KeyError characteristic_name)).
Proof.
  split; [|apply factory_build_unrecognized].
  rewrite recognized_column_lookup. unfold dict_mem.
  unfold ModelCharacteristicBuilder.build, getitem.
  destruct (dict_get characteristic_name _) as [c|]; [|done].
  intros _. unfold ModelCharacteristicBuilder.truthy, instantiate.
  destruct args as [|v [|v' args]]; simpl; split; try done.
  - split; [by intros [? ?]|done].
  - split; [done|]. intros _. by eexists.
  - split; [by intros [? ?]|done].
Qed.

(** ** Failures of the row-to-model builder *)




Lemma dict_update_absent {V : Type} (k : string) (v : V) (d : dict V) :
  dict_get k d = None -> dict_update k v d = d ++ [(k, v)].
Proof.
  induction d as [|[k' v'] d IH]; simpl; [done|].
  destruct (String.eqb k' k); [done|]. intros Hd. by rewrite IH.
Qed.


(** ** What the builder keeps *)

Lemma keeps_refl (w : world) : keeps w w.
Proof.
  repeat split; try done.
  intros l mf Hl. exists mf, []. by rewrite app_nil_r.
Qed.

Lemma keeps_trans (w1 w2 w3 : world) : keeps w1 w2 -> keeps w2 w3 -> keeps w1 w3.
Proof.
  intros (Hf1 & Ho1 & Hr1 & Hh1) (Hf2 & Ho2 & Hr2 & Hh2).
  repeat split; try congruence.
  - intros b l Hb. by apply Hr2, Hr1.
  - intros l mf Hl.
    destruct (Hh1 l mf Hl) as (mf1 & more1 & Hl1 & Hb1 & Hm1).
    destruct (Hh2 l mf1 Hl1) as (mf2 & more2 & Hl2 & Hb2 & Hm2).
    exists mf2, (more1 ++ more2). split; [done|]. split; [congruence|].
    by rewrite Hm2, Hm1, app_assoc.
Qed.

Lemma keeps_resolve (brand : string) (w : world) :
  keeps w (snd (resolve brand w)).
Proof.
  unfold resolve. destruct (dict_get brand (registry w)) as [l|] eqn:Hreg;
    [apply keeps_refl|].
  unfold keeps. cbn [snd]. world_simpl.
  split; [done|]. split; [done|]. split.
  - intros b l Hb. rewrite dict_get_update_ne; [done|]. congruence.
  - intros l mf Hl. exists mf, []. rewrite app_nil_r.
    by rewrite (lookup_app_l_Some _ _ _ _ Hl).
Qed.

Lemma keeps_add_model (model : Model) (l : loc) (w : world) :
  keeps w (set_heap (alter (add_model model) l (heap w)) w).
Proof.
  unfold keeps. world_simpl.
  split; [done|]. split; [done|]. split; [done|].
  intros l' mf Hl'. destruct (decide (l = l')) as [->|Hne].
  - exists (add_model model mf), [model].
    by rewrite list_lookup_alter_eq, Hl'.
  - exists mf, []. rewrite list_lookup_alter_ne by done.
    by rewrite app_nil_r.
Qed.

(** The worlds [ModelBuilder.build] can leave: the one it found, the one
    after the get-or-create step, or that one with the model attached. *)
Lemma build_world (kwargs : dict string) (w : world) :
  snd (ModelBuilder.build kwargs w) = w
  \/ (exists brand, snd (ModelBuilder.build kwargs w) = snd (resolve brand w))
  \/ (exists brand,
        snd (ModelBuilder.build kwargs w)
        = set_heap (alter (add_model (model_of_row (fst (resolve brand w)) kwargs))
                      (fst (resolve brand w)) (heap (snd (resolve brand w))))
            (snd (resolve brand w))).
Proof.
  rewrite build_run.
  destruct (dict_get "name" kwargs) as [name|]; [|by left].
  destruct (PyStr.split name) as [|brand rest]; [by left|].
  destruct (resolve brand w) as [l w1] eqn:Hres.
  destruct (ModelBuilder.build_characteristics kwargs []).
  - right. right. exists brand. by rewrite Hres.
  - right. left. exists brand. by rewrite Hres.
Qed.

(** X4: whatever the row and whether it returns or raises,
    [ModelBuilder.build] only adds: the registry entries that existed
    still resolve to the same manufacturers, every manufacturer keeps
    its brand and its models in their order (models are only appended),
    and nothing is printed. *)
Theorem build_only_adds (kwargs : dict string) (w : world) :
  keeps w (snd (ModelBuilder.build kwargs w)).
Proof.
  destruct (build_world kwargs w) as [->|[[brand ->]|[brand ->]]].
  - apply keeps_refl.
  - apply keeps_resolve.
  - eapply keeps_trans; [apply keeps_resolve|apply keeps_add_model].
Qed.

(** ** Back references *)

Lemma backrefs_resolve (brand : string) (w : world) :
  backrefs_ok w -> backrefs_ok (snd (resolve brand w)).
Proof.
  intros Hback. unfold resolve.
  destruct (dict_get brand (registry w)); [done|].
  intros l mf model; world_simpl. intros Hl Hin.
  apply lookup_app_Some in Hl as [Hl|[_ Hl]]; [by eapply Hback|].
  apply list_lookup_singleton_Some in Hl as [_ <-]. done.
Qed.

Lemma backrefs_add_model (kwargs : dict string) (l : loc) (w : world) :
  backrefs_ok w ->
  backrefs_ok (set_heap (alter (add_model (model_of_row l kwargs)) l (heap w)) w).
Proof.
  intros Hback l' mf model; world_simpl. intros Hl' Hin.
  destruct (decide (l = l')) as [->|Hne].
  - rewrite list_lookup_alter_eq in Hl'.
    destruct (heap w !! l') as [mf0|] eqn:Hmf0; [|done].
    injection Hl' as <-. simpl in Hin.
    apply in_app_or in Hin as [Hin|[<-|[]]]; [by eapply Hback|done].
  - rewrite list_lookup_alter_ne in Hl' by done. by eapply Hback.
Qed.

Lemma build_backrefs (kwargs : dict string) (w : world) :
  backrefs_ok w -> backrefs_ok (snd (ModelBuilder.build kwargs w)).
Proof.
  intros Hback.
  destruct (build_world kwargs w) as [->|[[brand ->]|[brand ->]]].
  - done.
  - by apply backrefs_resolve.
  - by apply backrefs_add_model, backrefs_resolve.
Qed.

Lemma represent_backrefs (header row : list string) (i : nat) (d : dict string)
    (w : world) :
  backrefs_ok w -> backrefs_ok (snd (DatasetReader.represent header row i d w)).
Proof.
  revert i d w. induction row as [|item row IH]; intros i d w Hback; [done|].
  cbn [DatasetReader.represent]. unfold bind, print, lift, list_getitem.
  destruct (header !! i); [|done]. by apply IH.
Qed.

Lemma read_rows_backrefs (rows : list (list string)) (n : nat)
    (header : list string) (w : world) :
  backrefs_ok w -> backrefs_ok (snd (DatasetReader.read_rows rows n header w)).
Proof.
  revert n header w. induction rows as [|row rows IH]; intros n header w Hback;
    [done|].
  cbn [DatasetReader.read_rows]. destruct (Nat.eqb n 0); [by apply IH|].
  unfold DatasetReader.process_record, bind.
  pose proof (represent_backrefs header row 0 [] w Hback) as Hrep.
  destruct (DatasetReader.represent header row 0 [] w) as [[d|e] w1];
    [|exact Hrep].
  cbn [snd] in Hrep. unfold DatasetReader.call_build.
  destruct (dict_mem "registry" d); [exact Hrep|].
  pose proof (build_backrefs d w1 Hrep) as Hbuild.
  destruct (ModelBuilder.build d w1) as [[r|e] w2]; [by apply IH|exact Hbuild].
Qed.

(** X5: every model refers back to the manufacturer that holds it, and
    [ModelBuilder.build] and [DatasetReader.read] keep it so, whether
    they return or raise: a model is only ever appended to the
    manufacturer it was constructed with. *)
Theorem back_references_kept (w : world) :
  backrefs_ok w ->
  (forall kwargs, backrefs_ok (snd (ModelBuilder.build kwargs w)))
  /\ (forall data_path, backrefs_ok (snd (DatasetReader.read data_path w))).
Proof.
  intros Hback. split; [intros kwargs; by apply build_backrefs|].
  intros data_path.
  unfold DatasetReader.read, bind, DatasetReader.open_csv; world_simpl.
  destruct (csv_files w data_path) as [records|]; [|done].
  assert (backrefs_ok (set_registry [] w)) as Hback0 by exact Hback.
  pose proof (read_rows_backrefs records 0 [] _ Hback0) as Hrows.
  by destruct (DatasetReader.read_rows records 0 [] (set_registry [] w))
    as [[[]|e] w'].
Qed.

(** ** The reader as a run of the builder *)

Lemma resolve_stdout_frame (brand : string) (o : list string) (w : world) :
  resolve brand (set_stdout o w)
  = (fst (resolve brand w), set_stdout o (snd (resolve brand w))).
Proof. unfold resolve; world_simpl. by destruct (dict_get brand (registry w)). Qed.

(** What was printed before does not matter to [ModelBuilder.build]. *)
Lemma build_stdout_frame (kwargs : dict string) (o : list string) (w : world) :
  ModelBuilder.build kwargs (set_stdout o w)
  = (fst (ModelBuilder.build kwargs w),
     set_stdout o (snd (ModelBuilder.build kwargs w))).
Proof.
  rewrite !build_run.
  destruct (dict_get "name" kwargs) as [name|]; [|done].
  destruct (PyStr.split name) as [|brand rest]; [done|].
  rewrite resolve_stdout_frame. destruct (resolve brand w) as [l w1]. simpl.
  by destruct (ModelBuilder.build_characteristics kwargs []).
Qed.

Lemma build_all_stdout_frame (rows : list (dict string)) (o : list string)
    (w : world) :
  build_all rows (set_stdout o w)
  = (fst (build_all rows w), set_stdout o (snd (build_all rows w))).
Proof.
  revert w. induction rows as [|kwargs rows IH]; intros w; [done|].
  cbn [build_all]. unfold bind. rewrite build_stdout_frame.
  destruct (ModelBuilder.build kwargs w) as [[r|e] w1]; [|done].
  apply IH.
Qed.

(** The world a valid row leaves. *)
Lemma build_valid_step (kwargs : dict string) (w : world) :
  valid_row kwargs = true ->
  exists brand,
    brand_of kwargs = Some brand
    /\ ModelBuilder.build kwargs w
       = (Return (registry (snd (resolve brand w))),
          set_heap (alter (add_model (model_of_row (fst (resolve brand w)) kwargs))
                      (fst (resolve brand w)) (heap (snd (resolve brand w))))
            (snd (resolve brand w))).
Proof.
  intros Hvalid.
  destruct (valid_row_inv kwargs Hvalid)
    as (name & brand & rest & cs & Hname & Hsplit & Hbrand & Hcs & _).
  exists brand. split; [done|].
  rewrite build_run, Hname, Hsplit, Hcs. by destruct (resolve brand w).
Qed.

(** Records that fit the header and pair into valid rows are ingested
    as the builder run over their name/value sets, with their cells
    printed. *)
Lemma ingest_as_build_all (header : list string) (data : list (list string))
    (w w' : world) :
  forallb (record_ok header) data = true ->
  build_all (map (name_value_set header) data) w = (Return tt, w') ->
  ingest header data w = (Return tt, set_stdout (stdout w ++ concat data) w').
Proof.
  revert w w'. induction data as [|row data IH]; intros w w' Hok Hrun.
  - simpl in *. unfold ret in *. injection Hrun as <-.
    by rewrite app_nil_r, set_stdout_id.
  - cbn [forallb] in Hok. apply andb_prop in Hok as [Hrow Hdata].
    unfold record_ok in Hrow. apply andb_prop in Hrow as [Hfits Hvalid].
    cbn [map build_all] in Hrun. unfold bind in Hrun.
    cbn [ingest]. unfold bind, pair_cells. rewrite Hfits.
    unfold DatasetReader.call_build.
    rewrite (valid_row_no_registry_key _ Hvalid), build_stdout_frame.
    destruct (ModelBuilder.build (name_value_set header row) w) as [[r|e] w1];
      [|done].
    cbn [fst snd].
    pose proof (build_all_stdout_frame (map (name_value_set header) data)
                  (stdout w ++ row) w1) as Hframe.
    rewrite Hrun in Hframe. cbn [fst snd] in Hframe.
    rewrite (IH _ _ Hdata Hframe). world_simpl.
    cbn [concat]. by rewrite app_assoc.
Qed.

(** Only such records are ingested. *)
Lemma ingest_returns_ok (header : list string) (data : list (list string))
    (w w' : world) :
  ingest header data w = (Return tt, w') ->
  forallb (record_ok header) data = true.
Proof.
  revert w. induction data as [|row data IH]; intros w; [done|].
  cbn [ingest forallb]. unfold bind, pair_cells, record_ok.
  destruct (Nat.leb (length row) (length header)); [|done].
  unfold DatasetReader.call_build.
  destruct (dict_mem "registry" (name_value_set header row)); [done|].
  destruct (ModelBuilder.build _ _) as [[r|e] w1] eqn:Hbuild; [|done].
  rewrite (build_returns_valid _ _ _ _ Hbuild). simpl. apply IH.
Qed.

Lemma registry_ok_reset (w : world) : registry_ok (set_registry [] w).
Proof. by apply registry_ok_empty. Qed.

(** A successful read, taken apart. *)
Lemma read_returns_inv (data_path : string) (w w' : world)
    (header : list string) (data : list (list string)) (r : dict loc) :
  csv_files w data_path = Some (header :: data) ->
  DatasetReader.read data_path w = (Return r, w') ->
  forallb (record_ok header) data = true
  /\ forallb valid_row (map (name_value_set header) data) = true
  /\ r = registry w'
  /\ exists w'',
       build_all (map (name_value_set header) data) (set_registry [] w)
       = (Return tt, w'')
       /\ w' = set_stdout (stdout w ++ concat data) w''.
Proof.
  intros Hopen. rewrite (read_run _ _ _ Hopen). unfold read_closed, bind.
  destruct (ingest header data (set_registry [] w)) as [[[]|e] w1] eqn:Hingest;
    [|done].
  unfold get_registry. intros [= <- <-].
  pose proof (ingest_returns_ok _ _ _ _ Hingest) as Hok.
  assert (forallb valid_row (map (name_value_set header) data) = true) as Hvalid.
  { clear -Hok. induction data as [|row data IH]; [done|].
    cbn [forallb map] in *. apply andb_prop in Hok as [Hrow Hdata].
    unfold record_ok in Hrow. apply andb_prop in Hrow as [_ ->]. by apply IH. }
  split; [done|]. split; [done|]. split; [done|].
  destruct (build_all_valid _ (set_registry [] w)
              (registry_ok_reset w) Hvalid) as (w'' & _ & Hrun & _).
  exists w''. split; [done|].
  rewrite (ingest_as_build_all _ _ _ _ Hok Hrun) in Hingest.
  by injection Hingest as <-.
Qed.

(** X6: once the source is open, [DatasetReader.read] returns exactly
    when every data record has at most as many cells as the header and
    its cells, paired with the header names, form a valid row (a name
    with a token, recognized columns otherwise); this depends on the
    records alone, not on the world. *)
Theorem read_returns_iff (data_path : string) (w : world)
    (header : list string) (data : list (list string)) :
  csv_files w data_path = Some (header :: data) ->
  (exists r w', DatasetReader.read data_path w = (Return r, w'))
  <-> forallb (record_ok header) data = true.
Proof.
  intros Hopen. split.
  - intros (r & w' & Hread).
    by destruct (read_returns_inv _ _ _ _ _ _ Hopen Hread) as [? _].
  - intros Hok.
    assert (forallb valid_row (map (name_value_set header) data) = true) as Hvalid.
    { clear -Hok. induction data as [|row data IH]; [done|].
      cbn [forallb map] in *. apply andb_prop in Hok as [Hrow Hdata].
      unfold record_ok in Hrow. apply andb_prop in Hrow as [_ ->]. by apply IH. }
    destruct (build_all_valid _ (set_registry [] w)
                (registry_ok_reset w) Hvalid) as (w'' & _ & Hrun & _).
    rewrite (read_run _ _ _ Hopen). unfold read_closed, bind.
    rewrite (ingest_as_build_all _ _ _ _ Hok Hrun).
    by eexists _, _.
Qed.

(** X7: a read that returns has printed the cells of the data records,
    in order and nothing else; the header is not printed. *)
Theorem read_prints_data_cells (data_path : string) (w w' : world)
    (header : list string) (data : list (list string)) (r : dict loc) :
  csv_files w data_path = Some (header :: data) ->
  DatasetReader.read data_path w = (Return r, w') ->
  stdout w' = stdout w ++ concat data.
Proof.
  intros Hopen Hread.
  destruct (read_returns_inv _ _ _ _ _ _ Hopen Hread)
    as (_ & _ & _ & w'' & _ & ->).
  done.
Qed.

(** ** The registry a read returns *)

(** A brand that no row has is not registered by the run. *)
Lemma build_all_untouched (rows : list (dict string)) (w w' : world) (b : string) :
  registry_ok w -> forallb valid_row rows = true ->
  build_all rows w = (Return tt, w') ->
  List.filter (has_brand b) rows = [] ->
  dict_get b (registry w') = dict_get b (registry w).
Proof.
  revert w. induction rows as [|kwargs rows IH]; intros w Hok Hvalid Hrun Hnone.
  - simpl in Hrun. unfold ret in Hrun. by injection Hrun as <-.
  - cbn [forallb] in Hvalid. apply andb_prop in Hvalid as [Hrow Hrows].
    destruct (build_valid w kwargs Hok Hrow)
      as (brand & l1 & w1 & Hbrand & Hbuild & Hok1 & _ & _ & Hother & _).
    cbn [build_all] in Hrun. unfold bind in Hrun. rewrite Hbuild in Hrun.
    cbn [List.filter] in Hnone.
    rewrite (has_brand_eqb b brand kwargs Hbrand) in Hnone.
    destruct (String.eqb_spec brand b) as [_|Hne]; [done|].
    rewrite (IH w1 Hok1 Hrows Hrun Hnone). apply Hother. congruence.
Qed.

(** The registry a read returns, one brand at a time. *)
Lemma read_brand_models (data_path : string) (w w' : world)
    (header : list string) (data : list (list string)) (r : dict loc)
    (b : string) :
  csv_files w data_path = Some (header :: data) ->
  DatasetReader.read data_path w = (Return r, w') ->
  match List.filter (has_brand b) (map (name_value_set header) data) with
  | [] => dict_get b r = None
  | rows_b =>
      exists l mf,
        dict_get b r = Some l
        /\ heap w' !! l = Some mf
        /\ get_brand mf = b
        /\ get_all_models mf = map (model_of_row l) rows_b
  end.
Proof.
  intros Hopen Hread.
  destruct (read_returns_inv _ _ _ _ _ _ Hopen Hread)
    as (_ & Hvalid & -> & w'' & Hrun & ->).
  world_simpl.
  destruct (build_all_valid _ (set_registry [] w) (registry_ok_reset w) Hvalid)
    as (w2 & _ & Hrun2 & Hok & _ & _ & _ & Hmodels & Hmem).
  rewrite Hrun in Hrun2. injection Hrun2 as <-.
  destruct (List.filter (has_brand b) (map (name_value_set header) data))
    as [|kwargs rows_b] eqn:Hrows.
  - by rewrite (build_all_untouched _ _ _ b (registry_ok_reset w) Hvalid Hrun Hrows).
  - specialize (Hmem b). rewrite Hrows in Hmem.
    destruct (proj1 (dict_mem_true _ _) (Hmem ltac:(done))) as [l Hl].
    destruct (Hok b l Hl) as (mf & Hmf & Hb).
    specialize (Hmodels b l Hl). rewrite Hrows in Hmodels.
    unfold models_of in Hmodels. rewrite Hl, Hmf in Hmodels.
    exists l, mf. by repeat split.
Qed.

(** X8: in the registry a read returns, a brand is present exactly when
    some data record has it as the first token of its name; the
    manufacturer registered under it has that brand and holds one model
    per such record, in the order of the source, and no other model. *)
Theorem read_models_per_brand (data_path : string) (w w' : world)
    (header : list string) (data : list (list string)) (r : dict loc)
    (b : string) :
  csv_files w data_path = Some (header :: data) ->
  DatasetReader.read data_path w = (Return r, w') ->
  match List.filter (has_brand b) (map (name_value_set header) data) with
  | [] => dict_get b r = None
  | rows_b =>
      exists l mf,
        dict_get b r = Some l
        /\ heap w' !! l = Some mf
        /\ get_brand mf = b
        /\ get_all_models mf = map (model_of_row l) rows_b
  end.
Proof. apply read_brand_models. Qed.

Lemma brands_of_cons (kwargs : dict string) (rows : list (dict string))
    (brand : string) :
  brand_of kwargs = Some brand ->
  brands_of (kwargs :: rows) = brand :: brands_of rows.
Proof. intros Hbrand. unfold brands_of. simpl. by rewrite Hbrand. Qed.

(** The registry and the heap after the builder has run over valid rows:
    the brands not seen before are registered in the order of their
    first appearance, at consecutive new addresses. *)
Lemma build_all_registry_shape (rows : list (dict string)) (w w' : world) :
  forallb valid_row rows = true ->
  build_all rows w = (Return tt, w') ->
  let new := first_appearances (dict_keys (registry w)) (brands_of rows) in
  registry w' = registry w ++ zip new (seq (length (heap w)) (length new))
  /\ length (heap w') = length (heap w) + length new.
Proof.
  revert w. induction rows as [|kwargs rows IH]; intros w Hvalid Hrun.
  - simpl in *. unfold ret in Hrun. injection Hrun as <-.
    by rewrite app_nil_r, Nat.add_0_r.
  - cbn [forallb] in Hvalid. apply andb_prop in Hvalid as [Hrow Hrows].
    destruct (build_valid_step kwargs w Hrow) as (brand & Hbrand & Hbuild).
    cbn [build_all] in Hrun. unfold bind in Hrun. rewrite Hbuild in Hrun.
    destruct (IH _ Hrows Hrun) as [Hreg Hlen]. clear IH Hrun Hbuild.
    world_simpl. rewrite length_alter in Hlen.
    rewrite (brands_of_cons _ _ _ Hbrand). cbn [first_appearances].
    rewrite <- (dict_get_recognized _ brand (registry w)).
    unfold resolve, dict_mem in *.
    destruct (dict_get brand (registry w)) as [l|] eqn:Hl;
      cbn [fst snd] in Hreg, Hlen; world_simpl; rewrite length_alter in Hreg.
    + done.
    + rewrite dict_update_absent in Hreg, Hlen by done.
      unfold dict_keys in *. rewrite map_app in Hreg, Hlen.
      cbn [map fst] in Hreg, Hlen.
      rewrite length_app in Hreg, Hlen. cbn [length] in Hreg, Hlen.
      rewrite Hreg, Hlen. cbn [length seq zip zip_with].
      rewrite <- app_assoc. cbn [app].
      replace (length (heap w) + 1) with (S (length (heap w))) by lia.
      split; [done|lia].
Qed.

(** X9: the registry a read returns lists the brands of the data
    records in the order of their first appearance, each once, and the
    manufacturers they refer to are the ones the read allocated, in
    that order. *)
Theorem read_registry_order (data_path : string) (w w' : world)
    (header : list string) (data : list (list string)) (r : dict loc) :
  csv_files w data_path = Some (header :: data) ->
  DatasetReader.read data_path w = (Return r, w') ->
  dict_keys r
  = first_appearances [] (brands_of (map (name_value_set header) data))
  /\ map snd r = seq (length (heap w)) (length r)
  /\ length (heap w') = length (heap w) + length r.
Proof.
  intros Hopen Hread.
  destruct (read_returns_inv _ _ _ _ _ _ Hopen Hread)
    as (_ & Hvalid & -> & w'' & Hrun & ->).
  destruct (build_all_registry_shape _ _ _ Hvalid Hrun) as [Hreg Hlen].
  world_simpl. cbn [dict_keys map app] in Hreg.
  set (new := first_appearances [] _) in *.
  assert (length (zip new (seq (length (heap w)) (length new))) = length new)
    as Hzip.
  { rewrite length_zip_with, length_seq. lia. }
  rewrite Hreg, Hzip. unfold dict_keys.
  change (map fst ?l) with (l.*1). change (map snd ?l) with (l.*2).
  rewrite fst_zip, snd_zip by (rewrite length_seq; lia).
  done.
Qed.

(** ** Counting models *)

Lemma total_models_app (h1 h2 : list Manufacturer) :
  total_models (h1 ++ h2) = total_models h1 + total_models h2.
Proof.
  induction h1 as [|mf h1 IH]; simpl; [done|]. rewrite IH. lia.
Qed.

Lemma total_models_add_model (h : list Manufacturer) (l : loc)
    (mf : Manufacturer) (model : Model) :
  h !! l = Some mf ->
  total_models (alter (add_model model) l h) = S (total_models h).
Proof.
  revert l. induction h as [|mf0 h IH]; intros [|l] Hl; try done.
  - injection Hl as ->. simpl. rewrite length_app. simpl. lia.
  - pose proof (IH l Hl) as IH'. simpl.
    change (list_alter (add_model model) l h)
      with (alter (add_model model) l h).
    lia.
Qed.

Lemma total_models_resolve (brand : string) (w : world) :
  total_models (heap (snd (resolve brand w))) = total_models (heap w).
Proof.
  unfold resolve. destruct (dict_get brand (registry w)); [done|].
  world_simpl. cbn [snd]. world_simpl. rewrite total_models_app. simpl. lia.
Qed.

Lemma resolve_allocated (brand : string) (w : world) :
  registry_ok w ->
  exists mf, heap (snd (resolve brand w)) !! fst (resolve brand w) = Some mf.
Proof.
  intros Hok. unfold resolve.
  destruct (dict_get brand (registry w)) as [l|] eqn:Hl.
  - destruct (Hok brand l Hl) as (mf & Hmf & _). by exists mf.
  - exists (Manufacturer_init brand). cbn [fst snd]. world_simpl.
    by rewrite list_lookup_middle.
Qed.

(** X10: on a registry whose entries refer to allocated manufacturers,
    [ModelBuilder.build] adds exactly one model to the heap when it
    returns and none when it raises (a manufacturer it may have created
    before raising has no model). *)
Theorem build_adds_one_model (kwargs : dict string) (w : world) :
  registry_ok w ->
  total_models (heap (snd (ModelBuilder.build kwargs w)))
  = match fst (ModelBuilder.build kwargs w) with
    | Return _ => S (total_models (heap w))
    | Raise _ => total_models (heap w)
    end.
Proof.
  intros Hok. rewrite build_run.
  destruct (dict_get "name" kwargs) as [name|]; [|done].
  destruct (PyStr.split name) as [|brand rest]; [done|].
  pose proof (total_models_resolve brand w) as Hres.
  destruct (resolve_allocated brand w Hok) as [mf Hmf].
  destruct (resolve brand w) as [l w1]. cbn [fst snd] in *.
  destruct (ModelBuilder.build_characteristics kwargs []); cbn [fst snd];
    world_simpl; [|done].
  by rewrite (total_models_add_model _ _ _ _ Hmf), Hres.
Qed.

Lemma build_all_total_models (rows : list (dict string)) (w w' : world) :
  registry_ok w -> forallb valid_row rows = true ->
  build_all rows w = (Return tt, w') ->
  total_models (heap w') = total_models (heap w) + length rows.
Proof.
  revert w. induction rows as [|kwargs rows IH]; intros w Hok Hvalid Hrun.
  - simpl in *. unfold ret in Hrun. injection Hrun as <-. lia.
  - cbn [forallb] in Hvalid. apply andb_prop in Hvalid as [Hrow Hrows].
    destruct (build_valid w kwargs Hok Hrow)
      as (brand & l1 & w1 & _ & Hbuild & Hok1 & _).
    cbn [build_all] in Hrun. unfold bind in Hrun. rewrite Hbuild in Hrun.
    rewrite (IH w1 Hok1 Hrows Hrun).
    destruct (build_valid_step kwargs w Hrow) as (brand' & _ & Hstep).
    rewrite Hstep in Hbuild. injection Hbuild as _ <-. world_simpl.
    destruct (resolve_allocated brand' w Hok) as [mf Hmf].
    rewrite (total_models_add_model _ _ _ _ Hmf), total_models_resolve.
    simpl. lia.
Qed.

(** X11: a read that returns has added exactly one model per data
    record to the heap: no record is dropped or counted twice, whatever
    the heap held before. *)
Theorem read_one_model_per_record (data_path : string) (w w' : world)
    (header : list string) (data : list (list string)) (r : dict loc) :
  csv_files w data_path = Some (header :: data) ->
  DatasetReader.read data_path w = (Return r, w') ->
  total_models (heap w') = total_models (heap w) + length data.
Proof.
  intros Hopen Hread.
  destruct (read_returns_inv _ _ _ _ _ _ Hopen Hread)
    as (_ & Hvalid & _ & w'' & Hrun & ->).
  world_simpl.
  rewrite (build_all_total_models _ _ _ (registry_ok_reset w) Hvalid Hrun).
  by rewrite length_map.
Qed.

(** ** The lookup of the presentation layer *)

(** X12: given the registry a read returned, the route [manufacturer]
    is one call of [render_template] for [brand.html], and its lookup
    does not raise: without a [brand] parameter, or for a brand that no
    data record has, the template is handed [None]; for a brand that
    some data record has it is handed the manufacturer of that brand,
    which holds at least one model.  So the route returns or raises
    what [render_template] returns or raises on that argument.  Before
    any registry is read (the module variable is [None]) the route
    raises [TypeError] without calling [render_template]. *)
Theorem manufacturer_route_after_read {response : Type}
    (render_template : string -> option loc -> M response)
    (data_path : string) (w w' : world)
    (header : list string) (data : list (list string)) (r : dict loc) :
  csv_files w data_path = Some (header :: data) ->
  DatasetReader.read data_path w = (Return r, w') ->
  (forall request_world,
     webapp.manufacturer render_template (Some r) None request_world
     = render_template "brand.html" None request_world)
  /\ (forall b request_world,
        match List.filter (has_brand b) (map (name_value_set header) data) with
        | [] =>
            webapp.manufacturer render_template (Some r) (Some b) request_world
            = render_template "brand.html" None request_world
        | _ =>
            exists l mf,
              webapp.manufacturer render_template (Some r) (Some b) request_world
              = render_template "brand.html" (Some l) request_world
              /\ heap w' !! l = Some mf
              /\ get_brand mf = b
              /\ get_all_models mf <> []
        end)
  /\ (forall brand request_world,
        webapp.manufacturer render_template None brand request_world
        = (Raise TypeError, request_world)).
Proof.
  intros Hopen Hread. split; [done|]. split; [|done].
  intros b request_world.
  pose proof (read_brand_models _ _ _ _ _ _ b Hopen Hread) as Hb.
  unfold webapp.manufacturer, bind, lift, ret, dict_mem, getitem.
  destruct (List.filter (has_brand b) (map (name_value_set header) data))
    as [|kwargs rows_b].
  - by rewrite Hb.
  - destruct Hb as (l & mf & Hl & Hmf & Hbrand & Hmodels).
    exists l, mf. rewrite Hl. repeat split; try done.
    by rewrite Hmodels.
Qed.

(** ** Pairing cells with header names *)

Lemma dict_get_app {V : Type} (k : string) (d1 d2 : dict V) :
  dict_get k (d1 ++ d2)
  = match dict_get k d1 with
    | Some v => Some v
    | None => dict_get k d2
    end.
Proof.
  induction d1 as [|[k' v'] d1 IH]; simpl; [done|].
  by destruct (String.eqb k' k).
Qed.

Lemma dict_get_update {V : Type} (k k' : string) (v : V) (d : dict V) :
  dict_get k' (dict_update k v d)
  = if String.eqb k k' then Some v else dict_get k' d.
Proof.
  destruct (String.eqb_spec k k') as [<-|Hne].
  - apply dict_get_update_eq.
  - by apply dict_get_update_ne.
Qed.

(** After a run of updates a key holds the value of the last update
    that named it. *)
Lemma fold_update_lookup (pairs : list (string * string)) (d : dict string)
    (k : string) :
  dict_get k (fold_left (fun d kv => dict_update (fst kv) (snd kv) d) pairs d)
  = match dict_get k (reverse pairs) with
    | Some v => Some v
    | None => dict_get k d
    end.
Proof.
  revert d. induction pairs as [|[k' v'] pairs IH]; intros d; [done|].
  cbn [fold_left fst snd]. rewrite IH, reverse_cons, dict_get_app.
  destruct (dict_get k (reverse pairs)); [done|].
  rewrite dict_get_update. simpl. by destruct (String.eqb k' k).
Qed.

(** Updates with distinct new keys append in order. *)
Lemma fold_update_distinct (header row : list string) (d : dict string) :
  NoDup header ->
  (forall k, k ∈ header -> dict_get k d = None) ->
  fold_left (fun d kv => dict_update (fst kv) (snd kv) d) (zip header row) d
  = d ++ zip header row.
Proof.
  revert row d. induction header as [|h header IH]; intros row d Hnodup Hnew.
  - simpl. by rewrite app_nil_r.
  - destruct row as [|c row]; simpl; [by rewrite app_nil_r|].
    apply NoDup_cons in Hnodup as [Hh Hnodup].
    rewrite dict_update_absent by (apply Hnew; left).
    rewrite IH; [by rewrite <- app_assoc|done|].
    intros k Hk. rewrite dict_get_app, Hnew by (by right). simpl.
    destruct (String.eqb_spec h k) as [->|_]; done.
Qed.

(** X13: when the header names are pairwise distinct, the name/value
    set that [DatasetReader.read] builds from a data record with no
    more cells than the header is the list of (header name, cell) pairs
    in column order; so the fields of the row that reaches the builder
    iterate in the column order of the source. *)
Theorem distinct_columns_pair_in_order (header row : list string) (w : world) :
  NoDup header -> length row <= length header ->
  DatasetReader.represent header row 0 [] w
  = (Return (zip header row), set_stdout (stdout w ++ row) w).
Proof.
  intros Hnodup Hfits. rewrite represent_pair_cells. unfold pair_cells.
  destruct (Nat.leb_spec (length row) (length header)); [|lia].
  unfold name_value_set. by rewrite fold_update_distinct.
Qed.

Lemma dict_update_keys {V : Type} (k : string) (v : V) (d : dict V) :
  dict_keys (dict_update k v d)
  = if existsb (String.eqb k) (dict_keys d) then dict_keys d
    else dict_keys d ++ [k].
Proof.
  unfold dict_keys.
  induction d as [|[k' v'] d IH]; cbn [dict_update map fst existsb app]; [done|].
  rewrite (String.eqb_sym k k').
  destruct (String.eqb k' k); cbn [map fst orb]; [done|].
  rewrite IH. by destruct (existsb (String.eqb k) (map fst d)).
Qed.

(** A run of updates keeps the keys it finds and appends the new ones
    in the order of their first update. *)
Lemma fold_update_key_order (pairs : list (string * string)) (d : dict string) :
  dict_keys (fold_left (fun d kv => dict_update (fst kv) (snd kv) d) pairs d)
  = dict_keys d ++ first_appearances (dict_keys d) (map fst pairs).
Proof.
  revert d. induction pairs as [|[k v] pairs IH]; intros d.
  - simpl. by rewrite app_nil_r.
  - cbn [fold_left map fst snd first_appearances].
    rewrite IH, dict_update_keys.
    destruct (existsb (String.eqb k) (dict_keys d)); [done|].
    by rewrite <- app_assoc.
Qed.

Lemma existsb_eqb_false (k : string) (seen : list string) :
  existsb (String.eqb k) seen = false -> k ∉ seen.
Proof.
  intros Hnot Hin. apply list_elem_of_In in Hin.
  assert (existsb (String.eqb k) seen = true) as Hyes; [|congruence].
  apply existsb_exists. exists k. split; [done|]. apply String.eqb_refl.
Qed.

Lemma first_appearances_distinct (seen brands : list string) :
  NoDup seen -> NoDup (seen ++ first_appearances seen brands).
Proof.
  revert seen. induction brands as [|b brands IH]; intros seen Hseen.
  - simpl. by rewrite app_nil_r.
  - cbn [first_appearances].
    destruct (existsb (String.eqb b) seen) eqn:Hb; [by apply IH|].
    apply existsb_eqb_false in Hb.
    change (b :: first_appearances (seen ++ [b]) brands)
      with ([b] ++ first_appearances (seen ++ [b]) brands).
    rewrite app_assoc. apply IH.
    apply NoDup_app. split; [done|]. split; [|apply NoDup_singleton].
    intros x Hx Hxb. apply list_elem_of_singleton in Hxb. by subst.
Qed.

(** X14: the name/value set that the reader builds for a data record
    holds every header name once, at the place of its first occurrence
    among the columns the record has cells for; and when a name occurs
    more than once the cell of its last occurrence wins: looking a name
    up gives the cell at the last such position, an earlier cell under
    the same name being overwritten. *)
Theorem duplicate_column_last_wins (header row : list string) (w : world)
    (k : string) :
  length row <= length header ->
  exists d,
    DatasetReader.represent header row 0 [] w
    = (Return d, set_stdout (stdout w ++ row) w)
    /\ NoDup (dict_keys d)
    /\ dict_keys d = first_appearances [] (take (length row) header)
    /\ dict_get k d = dict_get k (reverse (zip header row)).
Proof.
  intros Hfits. exists (name_value_set header row).
  rewrite represent_pair_cells. unfold pair_cells.
  destruct (Nat.leb_spec (length row) (length header)); [|lia].
  split; [done|].
  assert (dict_keys (name_value_set header row)
          = first_appearances [] (take (length row) header)) as Hkeys.
  { unfold name_value_set. rewrite fold_update_key_order. cbn [dict_keys map app].
    change (map fst ?l) with (l.*1).
    rewrite <- (zip_with_take_l pair header row), fst_zip; [done|].
    rewrite length_take. lia. }
  split; [|split; [done|]].
  - rewrite Hkeys. apply (first_appearances_distinct []). apply NoDup_nil_2.
  - unfold name_value_set. rewrite fold_update_lookup.
    by destruct (dict_get k (reverse (zip header row))).
Qed.

Lemma dict_get_of_key {V : Type} (k : string) (d : dict V) :
  In k (dict_keys d) -> exists v, dict_get k d = Some v.
Proof.
  induction d as [|[k' v'] d IH]; simpl; [done|].
  destruct (String.eqb_spec k' k) as [_|Hne]; [by eexists|].
  intros [?|Hin]; [done|]. by apply IH.
Qed.

(** Every header name that a cell reaches is a key of the name/value
    set. *)
Lemma name_value_set_has_key (header row : list string) (k : string) :
  length row <= length header ->
  In k (take (length row) header) ->
  dict_mem k (name_value_set header row) = true.
Proof.
  intros Hfits Hin. apply dict_mem_true. unfold name_value_set.
  rewrite fold_update_lookup.
  assert (In k (dict_keys (reverse (zip header row)))) as Hkey.
  { unfold dict_keys. change (map fst ?l) with (l.*1).
    rewrite fmap_reverse. apply list_elem_of_In, elem_of_reverse, list_elem_of_In.
    rewrite <- (zip_with_take_l pair header row), fst_zip; [done|].
    rewrite length_take. lia. }
  destruct (dict_get_of_key _ _ Hkey) as [v ->]. by exists v.
Qed.

(** X15: a header that has a column called [registry] cannot be read:
    on a data record with a cell for that column the call of the
    builder raises [TypeError] (the keyword collides with the parameter
    [registry] of [ModelBuilder.build]) before anything is allocated or
    registered for the record. *)
Theorem registry_column_type_error (data_path : string) (w w1 : world)
    (header : list string) (before : list (list string)) (row : list string)
    (after : list (list string)) :
  csv_files w data_path = Some (header :: before ++ row :: after) ->
  DatasetReader.read_rows (header :: before) 0 [] (set_registry [] w)
  = (Return tt, w1) ->
  length row <= length header ->
  In "registry" (take (length row) header) ->
  DatasetReader.read data_path w
  = (Raise TypeError, set_stdout (stdout w1 ++ row) w1).
Proof.
  intros Hopen Hbefore Hfits Hcol. rewrite (read_unfold _ _ _ Hopen).
  cbn [DatasetReader.read_rows Nat.eqb] in *.
  rewrite read_rows_app, Hbefore.
  cbn [DatasetReader.read_rows Nat.eqb Nat.add]. unfold bind at 1.
  rewrite process_record_pair_cells. unfold bind, pair_cells.
  destruct (Nat.leb_spec (length row) (length header)); [|lia].
  unfold DatasetReader.call_build.
  by rewrite (name_value_set_has_key _ _ _ Hfits Hcol).
Qed.

(** ** Sources without data records *)

(** X16: a source with no record at all, or with a header line only,
    makes [DatasetReader.read] return an empty registry; nothing is
    allocated and nothing is printed, whatever the header holds. *)
Theorem read_without_data (data_path : string) (w : world)
    (records : list (list string)) :
  csv_files w data_path = Some records -> length records <= 1 ->
  DatasetReader.read data_path w = (Return [], set_registry [] w).
Proof.
  intros Hopen Hshort. rewrite (read_unfold _ _ _ Hopen).
  destruct records as [|header [|row rest]]; simpl in *; try done. lia.
Qed.


(** ** Instances of the further theorems *)

Lemma registry_ok_used_world : registry_ok used_world.
Proof.
  intros b l. unfold used_world. cbn [registry heap dict_get].
  destruct (String.eqb_spec "Saab" b) as [<-|_]; [|discriminate].
  intros [= <-]. exists (Manufacturer_init "Saab"). split; reflexivity.
Qed.

Lemma backrefs_ok_used_world : backrefs_ok used_world.
Proof.
  intros [|l] mf model Hl Hin; simpl in Hl; [|done].
  injection Hl as <-. destruct Hin.
Qed.

Lemma sample_read :
  DatasetReader.read "Auto.tsv" used_world
  = (Return sample_registry, sample_world).
Proof. reflexivity. Qed.


Lemma back_references_kept_witness :
  backrefs_ok used_world
  /\ backrefs_ok (snd (ModelBuilder.build corolla used_world))
  /\ backrefs_ok sample_world.
Proof.
  split; [exact backrefs_ok_used_world|].
  destruct (back_references_kept used_world backrefs_ok_used_world)
    as [Hbuild Hread].
  split; [exact (Hbuild corolla)|exact (Hread "Auto.tsv")].
Defined.

Lemma read_returns_iff_witness :
  (exists r w', DatasetReader.read "Auto.tsv" used_world = (Return r, w'))
  <-> forallb (record_ok sample_header) sample_data = true.
Proof.
  apply (read_returns_iff "Auto.tsv" used_world sample_header sample_data).
  reflexivity.
Defined.

Lemma read_prints_data_cells_witness :
  stdout sample_world
  = stdout used_world ++ concat sample_data.
Proof.
  apply (read_prints_data_cells "Auto.tsv" used_world _ sample_header
           sample_data sample_registry eq_refl sample_read).
Defined.

Lemma read_models_per_brand_witness :
  exists l mf,
    dict_get "Ford" sample_registry = Some l
    /\ heap sample_world !! l = Some mf
    /\ get_brand mf = "Ford"
    /\ get_all_models mf = map (model_of_row l) [focus; fiesta].
Proof.
  exact (read_models_per_brand "Auto.tsv" used_world _ sample_header
           sample_data sample_registry "Ford" eq_refl sample_read).
Defined.

Lemma read_registry_order_witness :
  dict_keys sample_registry = ["Toyota"; "Ford"]
  /\ map snd sample_registry = seq (length (heap used_world)) 2
  /\ length (heap sample_world)
     = length (heap used_world) + 2.
Proof.
  exact (read_registry_order "Auto.tsv" used_world _ sample_header
           sample_data sample_registry eq_refl sample_read).
Defined.

Lemma build_adds_one_model_witness :
  total_models (heap (snd (ModelBuilder.build corolla used_world)))
  = S (total_models (heap used_world)).
Proof. exact (build_adds_one_model corolla used_world registry_ok_used_world). Defined.

Lemma read_one_model_per_record_witness :
  total_models (heap sample_world)
  = total_models (heap used_world) + 3.
Proof.
  exact (read_one_model_per_record "Auto.tsv" used_world _ sample_header
           sample_data sample_registry eq_refl sample_read).
Defined.

Lemma manufacturer_route_after_read_witness :
  webapp.manufacturer echo_template (Some sample_registry) (Some "Saab") sample_world
  = (Return ("brand.html", None), sample_world)
  /\ exists l mf,
       webapp.manufacturer echo_template (Some sample_registry) (Some "Ford")
         sample_world
       = (Return ("brand.html", Some l), sample_world)
       /\ heap sample_world !! l = Some mf
       /\ get_brand mf = "Ford"
       /\ get_all_models mf <> [].
Proof.
  destruct (manufacturer_route_after_read echo_template "Auto.tsv" used_world _
              sample_header sample_data sample_registry eq_refl sample_read)
    as (_ & Hbrand & _).
  split; [exact (Hbrand "Saab" sample_world)|exact (Hbrand "Ford" sample_world)].
Defined.

Lemma sample_header_distinct : NoDup sample_header.
Proof.
  unfold sample_header.
  repeat (apply NoDup_cons_2;
          [intros Hin;
           repeat (apply elem_of_cons in Hin as [Hin|Hin]; [discriminate|]);
           by apply elem_of_nil in Hin|]).
  apply NoDup_nil_2.
Qed.

Lemma distinct_columns_pair_in_order_witness :
  DatasetReader.represent sample_header ["Ford Focus"; "30"; "4"; "1999"] 0 []
    used_world
  = (Return focus,
     set_stdout (stdout used_world ++ ["Ford Focus"; "30"; "4"; "1999"]) used_world).
Proof.
  apply (distinct_columns_pair_in_order sample_header
           ["Ford Focus"; "30"; "4"; "1999"] used_world sample_header_distinct).
  simpl. lia.
Defined.

Lemma duplicate_column_last_wins_witness :
  exists d,
    DatasetReader.represent ["name"; "mpg"; "mpg"] ["Ford Focus"; "30"; "31"] 0 []
      used_world
    = (Return d,
       set_stdout (stdout used_world ++ ["Ford Focus"; "30"; "31"]) used_world)
    /\ NoDup (dict_keys d)
    /\ dict_keys d = ["name"; "mpg"]
    /\ dict_get "mpg" d = Some "31".
Proof.
  apply (duplicate_column_last_wins ["name"; "mpg"; "mpg"]
           ["Ford Focus"; "30"; "31"] used_world "mpg").
  simpl. lia.
Defined.

Lemma registry_column_type_error_witness :
  DatasetReader.read "Auto.tsv" (initial_world registry_files)
  = (Raise TypeError,
     set_stdout ([] ++ ["Ford Focus"; "7"]) (initial_world registry_files)).
Proof.
  apply (registry_column_type_error "Auto.tsv" (initial_world registry_files)
           (initial_world registry_files) ["name"; "registry"] []
           ["Ford Focus"; "7"] [] eq_refl eq_refl).
  - simpl. lia.
  - simpl. right. left. reflexivity.
Defined.

Lemma read_without_data_witness :
  DatasetReader.read "Auto.tsv" (initial_world header_only_files)
  = (Return [], set_registry [] (initial_world header_only_files)).
Proof.
  apply (read_without_data "Auto.tsv" (initial_world header_only_files)
           [["name"; "mpg"]] eq_refl).
  simpl. lia.
Defined.

(** ** The reader is the fold of the builder *)

(** The builder returns from a run only if every row is valid. *)
Lemma build_all_returns_valid (rows : list (dict string)) (w w' : world) :
  build_all rows w = (Return tt, w') -> forallb valid_row rows = true.
Proof.
  revert w. induction rows as [|kwargs rows IH]; intros w; [done|].
  cbn [build_all forallb]. unfold bind.
  destruct (ModelBuilder.build kwargs w) as [[r|e] w1] eqn:Hbuild; [|done].
  rewrite (build_returns_valid _ _ _ _ Hbuild). apply IH.
Qed.

Lemma record_ok_of_fit (header : list string) (data : list (list string)) :
  forallb (fun row => Nat.leb (length row) (length header)) data = true ->
  forallb valid_row (map (name_value_set header) data) = true ->
  forallb (record_ok header) data = true.
Proof.
  induction data as [|row data IH]; [done|].
  cbn [forallb map]. unfold record_ok at 1.
  intros [-> Hfit]%andb_prop [-> Hvalid]%andb_prop. by apply IH.
Qed.

Lemma fit_of_record_ok (header : list string) (data : list (list string)) :
  forallb (record_ok header) data = true ->
  forallb (fun row => Nat.leb (length row) (length header)) data = true.
Proof.
  induction data as [|row data IH]; [done|].
  cbn [forallb]. unfold record_ok at 1.
  intros [[-> _]%andb_prop Hdata]%andb_prop. by apply IH.
Qed.

(** C5: on a source that can be opened, what [DatasetReader.read]
    returns is the parser of the specification: the first record is the
    header, the header names are paired with the cells of every later
    record position by position, and [ModelBuilder.build] is run once
    per data record, in order, from an empty registry.  Whenever [read]
    returns, every data record fits the header and that fold returns
    the same registry over the same heap; and whenever every data
    record fits the header and the fold returns, [read] returns its
    registry over its heap. *)
Theorem read_is_fold_of_build (data_path : string) (w : world)
    (records : list (list string)) :
  csv_files w data_path = Some records ->
  (forall r w',
     DatasetReader.read data_path w = (Return r, w') ->
     data_fit records = true
     /\ exists w'',
          spec_parse records w = (Return r, w'')
          /\ heap w' = heap w'' /\ registry w' = registry w'' /\ r = registry w'')
  /\ (data_fit records = true ->
      forall r w'',
        spec_parse records w = (Return r, w'') ->
        exists w',
          DatasetReader.read data_path w = (Return r, w')
          /\ heap w' = heap w'' /\ registry w' = registry w'' /\ r = registry w'').
Proof.
  intros Hopen. destruct records as [|header data].
  - rewrite (read_unfold _ _ _ Hopen). cbn [DatasetReader.read_rows].
    unfold ret, spec_parse. split.
    + intros r w' [= <- <-]. split; [done|]. by exists (set_registry [] w).
    + intros _ r w'' [= <- <-]. by exists (set_registry [] w).
  - split.
    + intros r w' Hread.
      destruct (read_returns_inv _ _ _ _ _ _ Hopen Hread)
        as (Hok & _ & -> & w'' & Hrun & ->).
      split; [by apply fit_of_record_ok|].
      exists w''. unfold spec_parse. rewrite Hrun. done.
    + intros Hfit r w''. unfold spec_parse.
      destruct (build_all (map (name_value_set header) data) (set_registry [] w))
        as [[[]|e] w1] eqn:Hrun; [|done].
      intros [= <- <-].
      pose proof (build_all_returns_valid _ _ _ Hrun) as Hvalid.
      pose proof (record_ok_of_fit header data Hfit Hvalid) as Hok.
      exists (set_stdout (stdout (set_registry [] w) ++ concat data) w1).
      rewrite (read_run _ _ _ Hopen). unfold read_closed, bind.
      by rewrite (ingest_as_build_all _ _ _ _ Hok Hrun).
Qed.

Lemma read_is_fold_of_build_witness :
  data_fit sample_records = true
  /\ exists w'',
       spec_parse sample_records used_world = (Return sample_registry, w'')
       /\ heap sample_world = heap w''
       /\ registry sample_world = registry w''
       /\ sample_registry = registry w''.
Proof.
  exact (proj1 (read_is_fold_of_build "Auto.tsv" used_world sample_records eq_refl)
           sample_registry sample_world sample_read).
Defined.
